(** * terraform-provider-kubeadm: the init-configuration derivation

    A shallow embedding of [dataSourceToInitConfig]
    (pkg/provider/kubeadm_init.go) and the properties of the derived
    kubeadm [InitConfiguration].

    Go maps are references: a map-typed field holds a location (or nil) and
    the contents live in a heap, so that the package-level default map
    [common.DefKubeletSettings] and the maps of the record under
    construction can alias, as they do in the program. A run ends with a
    record, with an [error], or with a panic (failed type assertion,
    assignment to an entry of a nil map). *)

From Stdlib Require Import ZArith Ascii String List Bool Lia.
From stdpp Require Import base option list strings gmap fin_maps.

Local Open Scope string_scope.

(** ** Strings as byte sequences *)

Module Bytes.

Definition isDigit (c : ascii) : bool :=
  let n := nat_of_ascii c in (48 <=? n)%nat && (n <=? 57)%nat.

Definition isLower (c : ascii) : bool :=
  let n := nat_of_ascii c in (97 <=? n)%nat && (n <=? 122)%nat.

Definition digitVal (c : ascii) : Z := Z.of_nat (nat_of_ascii c) - 48.

(** [strings.IndexByte]: position of the first [c], if any. *)
Fixpoint IndexByte (s : string) (c : ascii) : option nat :=
  match s with
  | EmptyString => None
  | String a s' =>
      if Ascii.eqb a c then Some 0%nat
      else match IndexByte s' c with
           | Some i => Some (S i)
           | None => None
           end
  end.

(** Position of the last [c], if any. *)
Fixpoint LastIndexByte (s : string) (c : ascii) : option nat :=
  match s with
  | EmptyString => None
  | String a s' =>
      match LastIndexByte s' c with
      | Some i => Some (S i)
      | None => if Ascii.eqb a c then Some 0%nat else None
      end
  end.

(** [s[i:]] and [s[:i]] and [s[i:j]]. *)
Definition from (i : nat) (s : string) : string :=
  String.substring i (String.length s - i) s.
Definition upto (i : nat) (s : string) : string := String.substring 0 i s.
Definition slice (i j : nat) (s : string) : string := String.substring i (j - i) s.

Definition contains (s : string) (c : ascii) : bool :=
  match IndexByte s c with Some _ => true | None => false end.

Definition isEmpty (s : string) : bool :=
  match s with EmptyString => true | _ => false end.

Fixpoint existsb (p : ascii -> bool) (s : string) : bool :=
  match s with
  | EmptyString => false
  | String a s' => p a || existsb p s'
  end.

End Bytes.

(** ** Errors *)

(** The error values the function can return: [*net.AddrError],
    [*strconv.NumError], the [fmt.Errorf] strings, and whatever the
    credential constructor reports. *)
Inductive error : Type :=
| AddrError (Err Addr : string)
| NumError (Func Num Err : string)
| ErrorString (msg : string)
| TokenError (msg : string).

(** ** The Go library functions the derivation calls *)

Module net.

Definition missingPort := "missing port in address".
Definition tooManyColons := "too many colons in address".

Definition addrErr {A} (addr why : string) : A + error :=
  inr (AddrError why addr).

Definition checkBrackets (hostport host : string) (i j k : nat)
  : (string * string) + error :=
  if Bytes.contains (Bytes.from j hostport) "[" then
    addrErr hostport "unexpected '[' in address"
  else if Bytes.contains (Bytes.from k hostport) "]" then
    addrErr hostport "unexpected ']' in address"
  else inl (host, Bytes.from (S i) hostport).

(** [net.SplitHostPort]: the port starts after the last colon; a host in
    square brackets may contain colons. *)
Definition SplitHostPort (hostport : string) : (string * string) + error :=
  match Bytes.LastIndexByte hostport ":" with
  | None => addrErr hostport missingPort
  | Some i =>
      if String.prefix "[" hostport then
        match Bytes.IndexByte hostport "]" with
        | None => addrErr hostport "missing ']' in address"
        | Some e =>
            if (S e =? String.length hostport)%nat then addrErr hostport missingPort
            else if (S e =? i)%nat then
              checkBrackets hostport (Bytes.slice 1 e hostport) i 1 (S e)
            else if String.prefix ":" (Bytes.from (S e) hostport) then
              addrErr hostport tooManyColons
            else addrErr hostport missingPort
        end
      else
        let host := Bytes.upto i hostport in
        if Bytes.contains host ":" then addrErr hostport tooManyColons
        else checkBrackets hostport host i 0 0
  end.

End net.

Module strconv.

Local Open Scope Z_scope.

(** [int] is 64 bits wide. *)
Definition intSize : Z := 64.
Definition maxUint64 : Z := 2 ^ 64 - 1.
Definition cutoff : Z := 2 ^ (intSize - 1).

Definition syntaxError (s0 : string) : error :=
  NumError "Atoi" s0 "invalid syntax".
Definition rangeError (s0 : string) : error :=
  NumError "Atoi" s0 "value out of range".

(** The digit loop of [ParseUint] in base 10: a byte that is no digit is
    a syntax error, a value beyond 64 bits a range error, whichever comes
    first. *)
Fixpoint parseUint (s0 s : string) (n : Z) : Z + error :=
  match s with
  | EmptyString => inl n
  | String c s' =>
      if Bytes.isDigit c then
        let n1 := n * 10 + Bytes.digitVal c in
        if maxUint64 <? n1 then inr (rangeError s0) else parseUint s0 s' n1
      else inr (syntaxError s0)
  end.

(** [strconv.Atoi]: an optional sign, then decimal digits, in the range of
    [int]. *)
Definition Atoi (s0 : string) : Z + error :=
  match s0 with
  | EmptyString => inr (syntaxError s0)
  | String c rest =>
      let neg := Ascii.eqb c "-" in
      let s := if neg || Ascii.eqb c "+" then rest else s0 in
      if Bytes.isEmpty s then inr (syntaxError s0)
      else match parseUint s0 s 0 with
           | inr e => inr e
           | inl un =>
               if negb neg && (cutoff <=? un) then inr (rangeError s0)
               else if neg && (cutoff <? un) then inr (rangeError s0)
               else inl (if neg then - un else un)
           end
  end.

End strconv.

(** The conversion [int32(i)]: the low 32 bits, read as a signed number. *)
Definition int32 (i : Z) : Z := ((i + 2 ^ 31) mod 2 ^ 32 - 2 ^ 31)%Z.

Module regexp.

(** Regular expressions over bytes, as far as the pattern of the function
    needs them. *)
Inductive Regexp : Type :=
| NoMatch
| EmptyMatch
| CharClass (p : ascii -> bool)
| Concat (r1 r2 : Regexp)
| Alternate (r1 r2 : Regexp)
| Star (r : Regexp).

Definition Literal (c : ascii) : Regexp := CharClass (Ascii.eqb c).
Definition Quest (r : Regexp) : Regexp := Alternate r EmptyMatch.

Fixpoint nullable (r : Regexp) : bool :=
  match r with
  | NoMatch => false
  | EmptyMatch => true
  | CharClass _ => false
  | Concat r1 r2 => nullable r1 && nullable r2
  | Alternate r1 r2 => nullable r1 || nullable r2
  | Star _ => true
  end.

(** What is left of [r] after reading the byte [c]. *)
Fixpoint deriv (c : ascii) (r : Regexp) : Regexp :=
  match r with
  | NoMatch => NoMatch
  | EmptyMatch => NoMatch
  | CharClass p => if p c then EmptyMatch else NoMatch
  | Concat r1 r2 =>
      if nullable r1 then Alternate (Concat (deriv c r1) r2) (deriv c r2)
      else Concat (deriv c r1) r2
  | Alternate r1 r2 => Alternate (deriv c r1) (deriv c r2)
  | Star r1 => Concat (deriv c r1) (Star r1)
  end.

(** Does the whole of [s] match [r]? *)
Fixpoint matchAll (r : Regexp) (s : string) : bool :=
  match s with
  | EmptyString => nullable r
  | String c s' => matchAll (deriv c r) s'
  end.

(** Does some prefix of [s] match [r]? *)
Fixpoint matchPrefix (r : Regexp) (s : string) : bool :=
  nullable r ||
  match s with
  | EmptyString => false
  | String c s' => matchPrefix (deriv c r) s'
  end.

(** [MatchString] of a compiled pattern: does [s] contain any match of
    [r]? The search is not anchored. *)
Fixpoint MatchString (r : Regexp) (s : string) : bool :=
  matchPrefix r s ||
  match s with
  | EmptyString => false
  | String _ s' => MatchString r s'
  end.

End regexp.

(** ** Go maps, the heap and the outcome of a run *)

(** A [map[string]string] value is a reference to a map object, or nil. *)
Definition loc := positive.
Abbreviation gomap := (gmap string string).
Abbreviation mapref := (option loc).
Abbreviation heap := (gmap loc (gmap string string)).

(** The contents behind a map reference; reading a nil map finds nothing. *)
Definition contents (h : heap) (m : mapref) : gmap string string :=
  match m with
  | Some l => h !!! l
  | None => ∅
  end.

Inductive outcome (A : Type) : Type :=
| Ok (a : A)
| Err (e : error)
| Panic.
Arguments Ok {A} a.
Arguments Err {A} e.
Arguments Panic {A}.

(** A computation reads and writes the heap; after an error or a panic the
    writes done so far stay. *)
Definition M (A : Type) : Type := heap -> outcome A * heap.

#[global] Instance M_ret : MRet M := fun A a h => (Ok a, h).

#[global] Instance M_bind : MBind M := fun A B f m h =>
  match m h with
  | (Ok a, h') => f a h'
  | (Err e, h') => (Err e, h')
  | (Panic, h') => (Panic, h')
  end.

Definition fail {A} (e : error) : M A := fun h => (Err e, h).
Definition panic {A} : M A := fun h => (Panic, h).

(** A call [v, err := f(...)] followed by [if err != nil { return nil, err }]. *)
Definition try {A} (r : A + error) : M A :=
  match r with
  | inl a => mret a
  | inr e => fail e
  end.

(** [make(map[string]string)] / [map[string]string{}]. *)
Definition newMap : M loc := fun h =>
  let l := fresh (dom h) in (Ok l, <[l := ∅]> h).

(** [m[k] = v]; on a nil map this panics. *)
Definition store (m : mapref) (k v : string) : M unit :=
  match m with
  | Some l => fun h => (Ok tt, <[l := <[k := v]> (h !!! l)]> h)
  | None => panic
  end.

(** ** The source tree: [schema.ResourceData] *)

(** The dynamic type of an [interface{}]: the types the function asserts,
    and the rest. *)
#[local] Set Warnings "-register-all".
Inductive value : Type :=
| VString (s : string)                 (* string *)
| VStrings (l : list string)           (* []string *)
| VList (l : list value)               (* []interface{} *)
| VMap (m : mapref)                    (* map[string]string *)
| VOther.                              (* anything else: a nested block, a
                                          map[string]interface{}, a set, ... *)

(** The tree as [GetOk] shows it: the paths that are set, to a value that is
    not the zero value of its type. *)
Abbreviation ResourceData := (gmap string value).

(** [d.GetOk(key)]: the value and the ok flag, as an option. *)
Definition GetOk (d : gmap string value) (key : string) : option value := d !! key.

(** [d.Get(key)]: the value, or the zero value of the type of the path when
    the path is not set. The three paths the function reads with [Get] hold
    strings (it asserts [.(string)] on the result). *)
Definition Get (d : gmap string value) (key : string) : value :=
  default (VString "") (GetOk d key).

(** Type assertions [v.(T)]: a panic when the dynamic type is another one. *)
Definition assertString (v : value) : M string :=
  match v with VString s => mret s | _ => panic end.
Definition assertStrings (v : value) : M (list string) :=
  match v with VStrings l => mret l | _ => panic end.
Definition assertList (v : value) : M (list value) :=
  match v with VList l => mret l | _ => panic end.
Definition assertMap (v : value) : M mapref :=
  match v with VMap m => mret m | _ => panic end.

(** [if v, ok := d.GetOk(key); ok { body }] *)
Definition whenOk {A} (d : gmap string value) (key : string)
    (body : value -> A -> M A) (c : A) : M A :=
  match GetOk d key with
  | Some v => body v c
  | None => mret c
  end.

(** What [schema.ResourceData] hands out: a [string] for a string path, a
    [[]interface{}] for a list (line 98 asserts it), a
    [map[string]interface{}] for a map, and values of other types for nested
    blocks, sets, numbers and flags; never a [[]string] or a
    [map[string]string]. *)
Definition handedOut (v : value) : bool :=
  match v with
  | VStrings _ | VMap _ => false
  | VString _ | VList _ | VOther => true
  end.

(** A tree all of whose values have a type the library hands out. *)
Definition fromResourceData (d : gmap string value) : Prop :=
  map_Forall (fun _ v => handedOut v = true) d.

(** ** The target record: [kubeadmapi.InitConfiguration] *)

(** The structs of the kubeadm API with the fields the function reads or
    writes; a pointer to a struct is an option. *)

Record ImageMeta := { im_ImageRepository : string; im_ImageTag : string }.
Record LocalEtcd := { le_ImageMeta : ImageMeta }.
Record ExternalEtcd := { ee_Endpoints : list string }.
Record Etcd := { Local : option LocalEtcd; External : option ExternalEtcd }.
Record Networking := { ServiceSubnet : string; PodSubnet : string; DNSDomain : string }.
Record ControlPlaneComponent := { cp_ExtraArgs : mapref }.
Record APIServer := { api_ExtraArgs : mapref; CertSANs : list string }.
Record ClusterConfiguration := {
  cc_Etcd : Etcd;
  cc_Networking : Networking;
  KubernetesVersion : string;
  ControlPlaneEndpoint : string;
  cc_APIServer : APIServer;
  ControllerManager : ControlPlaneComponent;
  Scheduler : ControlPlaneComponent;
  ImageRepository : string
}.
Record BootstrapTokenString := { ID : string; Secret : string }.
Record BootstrapToken := {
  Token : option BootstrapTokenString;
  Description : string;
  TTL : option Z;
  Expires : option Z;
  Usages : list string;
  Groups : list string
}.
Record NodeRegistrationOptions := { CRISocket : string; KubeletExtraArgs : mapref }.
Record APIEndpoint := { AdvertiseAddress : string; BindPort : Z }.
Record InitConfiguration := {
  Cluster : ClusterConfiguration;
  BootstrapTokens : list BootstrapToken;
  NodeRegistration : NodeRegistrationOptions;
  LocalAPIEndpoint : APIEndpoint
}.

(** Field assignments. *)
Definition set_Cluster (f : ClusterConfiguration -> ClusterConfiguration)
    (c : InitConfiguration) : InitConfiguration :=
  {| Cluster := f (Cluster c); BootstrapTokens := BootstrapTokens c;
     NodeRegistration := NodeRegistration c; LocalAPIEndpoint := LocalAPIEndpoint c |}.

Definition set_ControlPlaneEndpoint (s : string) : InitConfiguration -> InitConfiguration :=
  set_Cluster (fun k =>
    {| cc_Etcd := cc_Etcd k; cc_Networking := cc_Networking k;
       KubernetesVersion := KubernetesVersion k; ControlPlaneEndpoint := s;
       cc_APIServer := cc_APIServer k; ControllerManager := ControllerManager k;
       Scheduler := Scheduler k; ImageRepository := ImageRepository k |}).

Definition set_KubernetesVersion (s : string) : InitConfiguration -> InitConfiguration :=
  set_Cluster (fun k =>
    {| cc_Etcd := cc_Etcd k; cc_Networking := cc_Networking k;
       KubernetesVersion := s; ControlPlaneEndpoint := ControlPlaneEndpoint k;
       cc_APIServer := cc_APIServer k; ControllerManager := ControllerManager k;
       Scheduler := Scheduler k; ImageRepository := ImageRepository k |}).

Definition set_ImageRepository (s : string) : InitConfiguration -> InitConfiguration :=
  set_Cluster (fun k =>
    {| cc_Etcd := cc_Etcd k; cc_Networking := cc_Networking k;
       KubernetesVersion := KubernetesVersion k;
       ControlPlaneEndpoint := ControlPlaneEndpoint k;
       cc_APIServer := cc_APIServer k; ControllerManager := ControllerManager k;
       Scheduler := Scheduler k; ImageRepository := s |}).

Definition set_Etcd (e : Etcd) : InitConfiguration -> InitConfiguration :=
  set_Cluster (fun k =>
    {| cc_Etcd := e; cc_Networking := cc_Networking k;
       KubernetesVersion := KubernetesVersion k;
       ControlPlaneEndpoint := ControlPlaneEndpoint k;
       cc_APIServer := cc_APIServer k; ControllerManager := ControllerManager k;
       Scheduler := Scheduler k; ImageRepository := ImageRepository k |}).

Definition set_Networking (n : Networking) : InitConfiguration -> InitConfiguration :=
  set_Cluster (fun k =>
    {| cc_Etcd := cc_Etcd k; cc_Networking := n;
       KubernetesVersion := KubernetesVersion k;
       ControlPlaneEndpoint := ControlPlaneEndpoint k;
       cc_APIServer := cc_APIServer k; ControllerManager := ControllerManager k;
       Scheduler := Scheduler k; ImageRepository := ImageRepository k |}).

Definition set_APIServer (a : APIServer) : InitConfiguration -> InitConfiguration :=
  set_Cluster (fun k =>
    {| cc_Etcd := cc_Etcd k; cc_Networking := cc_Networking k;
       KubernetesVersion := KubernetesVersion k;
       ControlPlaneEndpoint := ControlPlaneEndpoint k;
       cc_APIServer := a; ControllerManager := ControllerManager k;
       Scheduler := Scheduler k; ImageRepository := ImageRepository k |}).

Definition set_ControllerManagerExtraArgs (m : mapref) : InitConfiguration -> InitConfiguration :=
  set_Cluster (fun k =>
    {| cc_Etcd := cc_Etcd k; cc_Networking := cc_Networking k;
       KubernetesVersion := KubernetesVersion k;
       ControlPlaneEndpoint := ControlPlaneEndpoint k;
       cc_APIServer := cc_APIServer k; ControllerManager := {| cp_ExtraArgs := m |};
       Scheduler := Scheduler k; ImageRepository := ImageRepository k |}).

Definition set_SchedulerExtraArgs (m : mapref) : InitConfiguration -> InitConfiguration :=
  set_Cluster (fun k =>
    {| cc_Etcd := cc_Etcd k; cc_Networking := cc_Networking k;
       KubernetesVersion := KubernetesVersion k;
       ControlPlaneEndpoint := ControlPlaneEndpoint k;
       cc_APIServer := cc_APIServer k; ControllerManager := ControllerManager k;
       Scheduler := {| cp_ExtraArgs := m |}; ImageRepository := ImageRepository k |}).

Definition set_APIServerExtraArgs (m : mapref) (c : InitConfiguration) : InitConfiguration :=
  set_APIServer {| api_ExtraArgs := m; CertSANs := CertSANs (cc_APIServer (Cluster c)) |} c.

Definition set_CertSANs (l : list string) (c : InitConfiguration) : InitConfiguration :=
  set_APIServer {| api_ExtraArgs := api_ExtraArgs (cc_APIServer (Cluster c)); CertSANs := l |} c.

Definition set_PodSubnet (s : string) (c : InitConfiguration) : InitConfiguration :=
  let n := cc_Networking (Cluster c) in
  set_Networking {| ServiceSubnet := ServiceSubnet n; PodSubnet := s; DNSDomain := DNSDomain n |} c.

Definition set_ServiceSubnet (s : string) (c : InitConfiguration) : InitConfiguration :=
  let n := cc_Networking (Cluster c) in
  set_Networking {| ServiceSubnet := s; PodSubnet := PodSubnet n; DNSDomain := DNSDomain n |} c.

Definition set_DNSDomain (s : string) (c : InitConfiguration) : InitConfiguration :=
  let n := cc_Networking (Cluster c) in
  set_Networking {| ServiceSubnet := ServiceSubnet n; PodSubnet := PodSubnet n; DNSDomain := s |} c.

Definition set_EtcdExternal (e : option ExternalEtcd) (c : InitConfiguration) : InitConfiguration :=
  set_Etcd {| Local := Local (cc_Etcd (Cluster c)); External := e |} c.

Definition set_BootstrapTokens (l : list BootstrapToken) (c : InitConfiguration) : InitConfiguration :=
  {| Cluster := Cluster c; BootstrapTokens := l;
     NodeRegistration := NodeRegistration c; LocalAPIEndpoint := LocalAPIEndpoint c |}.

Definition set_CRISocket (s : string) (c : InitConfiguration) : InitConfiguration :=
  {| Cluster := Cluster c; BootstrapTokens := BootstrapTokens c;
     NodeRegistration := {| CRISocket := s;
                            KubeletExtraArgs := KubeletExtraArgs (NodeRegistration c) |};
     LocalAPIEndpoint := LocalAPIEndpoint c |}.

Definition set_KubeletExtraArgs (m : mapref) (c : InitConfiguration) : InitConfiguration :=
  {| Cluster := Cluster c; BootstrapTokens := BootstrapTokens c;
     NodeRegistration := {| CRISocket := CRISocket (NodeRegistration c);
                            KubeletExtraArgs := m |};
     LocalAPIEndpoint := LocalAPIEndpoint c |}.

Definition set_AdvertiseAddress (s : string) (c : InitConfiguration) : InitConfiguration :=
  {| Cluster := Cluster c; BootstrapTokens := BootstrapTokens c;
     NodeRegistration := NodeRegistration c;
     LocalAPIEndpoint := {| AdvertiseAddress := s;
                            BindPort := BindPort (LocalAPIEndpoint c) |} |}.

Definition set_BindPort (p : Z) (c : InitConfiguration) : InitConfiguration :=
  {| Cluster := Cluster c; BootstrapTokens := BootstrapTokens c;
     NodeRegistration := NodeRegistration c;
     LocalAPIEndpoint := {| AdvertiseAddress := AdvertiseAddress (LocalAPIEndpoint c);
                            BindPort := p |} |}.

Definition set_Endpoints (l : list string) (e : ExternalEtcd) : ExternalEtcd :=
  {| ee_Endpoints := l |}.

Definition set_Expires (e : option Z) (t : BootstrapToken) : BootstrapToken :=
  {| Token := Token t; Description := Description t; TTL := TTL t;
     Expires := e; Usages := Usages t; Groups := Groups t |}.


(** ** The package [common] *)

(** The package [common] of the repository is not among the sources at
    hand. What the function uses of it is a parameter of the development:
    the default kubelet settings (a package-level map variable, so a
    reference), the default API-server port, the alternate resolv.conf path,
    the engine-to-socket table (only ever read here, so given by its
    contents), and two functions. *)
Record Common := {
  DefKubeletSettings : mapref;
  DefAPIServerPort : Z;
  DefResolvUpstreamConf : string;
  DefCriSocket : gmap string string;
  AddressWithPort : string -> Z -> string;
  NewBootstrapToken : string -> BootstrapToken + error
}.

(** ** The pattern of the DNS-domain check *)

Definition lowerAlnum (c : ascii) : bool := Bytes.isLower c || Bytes.isDigit c.
Definition dashLowerAlnum (c : ascii) : bool := Ascii.eqb c "-" || lowerAlnum c.

(** [[a-z0-9]([-a-z0-9]*[a-z0-9])?] *)
Definition dnsLabel : regexp.Regexp :=
  regexp.Concat (regexp.CharClass lowerAlnum)
    (regexp.Quest (regexp.Concat (regexp.Star (regexp.CharClass dashLowerAlnum))
                                 (regexp.CharClass lowerAlnum))).

(** [[a-z0-9]([-a-z0-9]*[a-z0-9])?(\.[a-z0-9]([-a-z0-9]*[a-z0-9])?)*] *)
Definition dnsRegexp : regexp.Regexp :=
  regexp.Concat dnsLabel (regexp.Star (regexp.Concat (regexp.Literal ".") dnsLabel)).

Definition invalidDNSName (dnsDomain : string) : error :=
  ErrorString ("invalid DNS name '" +:+ dnsDomain +:+
    "': a DNS-1123 subdomain must consist of lower case alphanumeric characters, '-' or '.', and must start and end with an alphanumeric character (e.g. 'example.com')").

Definition unknownRuntimeEngine (name : string) : error :=
  ErrorString ("unknown runtime engine " +:+ name).

(** ** The derivation *)

Section Derivation.

Variable common : Common.

(** The record the function starts from (lines 35-45): zero values, an
    empty list of certificate names, and the kubelet extra-args set to the
    package-level default map itself. *)
Definition baseConfig : InitConfiguration :=
  {| Cluster := {|
       cc_Etcd := {| Local := None; External := None |};
       cc_Networking := {| ServiceSubnet := ""; PodSubnet := ""; DNSDomain := "" |};
       KubernetesVersion := "";
       ControlPlaneEndpoint := "";
       cc_APIServer := {| api_ExtraArgs := None; CertSANs := [] |};
       ControllerManager := {| cp_ExtraArgs := None |};
       Scheduler := {| cp_ExtraArgs := None |};
       ImageRepository := "" |};
     BootstrapTokens := [];
     NodeRegistration := {| CRISocket := "";
                            KubeletExtraArgs := DefKubeletSettings common |};
     LocalAPIEndpoint := {| AdvertiseAddress := ""; BindPort := 0 |} |}.

Definition kubeletArgs (c : InitConfiguration) : mapref :=
  KubeletExtraArgs (NodeRegistration c).
Definition apiServerArgs (c : InitConfiguration) : mapref :=
  api_ExtraArgs (cc_APIServer (Cluster c)).
Definition controllerManagerArgs (c : InitConfiguration) : mapref :=
  cp_ExtraArgs (ControllerManager (Cluster c)).
Definition schedulerArgs (c : InitConfiguration) : mapref :=
  cp_ExtraArgs (Scheduler (Cluster c)).
Definition certSANs (c : InitConfiguration) : list string :=
  CertSANs (cc_APIServer (Cluster c)).

(** Lines 52-68: the internal endpoint. *)
Definition apiInternal (internal : value) (c : InitConfiguration) : M InitConfiguration :=
  s ← assertString internal;
  '(host, port) ← try (net.SplitHostPort s);
  let c := set_AdvertiseAddress host c in
  c ← (if negb (Bytes.isEmpty port) then
         i ← try (strconv.Atoi port);
         mret (set_BindPort (int32 i) c)
       else mret c);
  mret (set_CertSANs (certSANs c ++ [host]) c).

(** Lines 47-73. *)
Definition apiBlock (d : gmap string value) : InitConfiguration -> M InitConfiguration :=
  whenOk d "api.0" (fun _ c =>
    c ← whenOk d "api.0.external" (fun external c =>
           s ← assertString external;
           mret (set_ControlPlaneEndpoint
                   (AddressWithPort common s (DefAPIServerPort common)) c)) c;
    c ← whenOk d "api.0.internal" apiInternal c;
    whenOk d "api.0.alt_names" (fun altNames c =>
      l ← assertStrings altNames;
      mret (set_CertSANs (certSANs c ++ l) c)) c).

(** Lines 84-95: the DNS domain and its check. *)
Definition dnsDomainStep (d : gmap string value) : InitConfiguration -> M InitConfiguration :=
  whenOk d "network.0.dns.0.domain" (fun dnsDomainOpt c =>
    dnsDomain ← assertString dnsDomainOpt;
    if negb (regexp.MatchString dnsRegexp dnsDomain) then fail (invalidDNSName dnsDomain)
    else mret (set_DNSDomain dnsDomain c)).

(** Lines 97-102: the upstream resolvers. *)
Definition dnsUpstreamStep (d : gmap string value) : InitConfiguration -> M InitConfiguration :=
  whenOk d "network.0.dns.0.upstream" (fun dnsUpstreamOpt c =>
    dnsUp ← assertList dnsUpstreamOpt;
    if (0 <? length dnsUp)%nat then
      _ ← store (kubeletArgs c) "resolv-conf" (DefResolvUpstreamConf common);
      mret c
    else mret c).

(** Lines 75-104. *)
Definition networkBlock (d : gmap string value) : InitConfiguration -> M InitConfiguration :=
  whenOk d "network.0" (fun _ c =>
    c ← whenOk d "network.0.pods" (fun podCIDROpt c =>
           s ← assertString podCIDROpt; mret (set_PodSubnet s c)) c;
    c ← whenOk d "network.0.services" (fun servicesCIDROpt c =>
           s ← assertString servicesCIDROpt; mret (set_ServiceSubnet s c)) c;
    whenOk d "network.0.dns.0" (fun _ c =>
      c ← dnsDomainStep d c;
      dnsUpstreamStep d c) c).

(** Lines 106-122. *)
Definition imagesBlock (d : gmap string value) : InitConfiguration -> M InitConfiguration :=
  whenOk d "images.0" (fun _ c =>
    kube_repo ← assertString (Get d "images.0.kube_repo");
    let c := set_ImageRepository kube_repo c in
    etcd_repo ← assertString (Get d "images.0.etcd_repo");
    etcd_version ← assertString (Get d "images.0.etcd_version");
    if negb (Bytes.isEmpty etcd_version) || negb (Bytes.isEmpty etcd_repo) then
      mret (set_Etcd {| Local := Some {| le_ImageMeta :=
                                   {| im_ImageRepository := etcd_repo;
                                      im_ImageTag := etcd_version |} |};
                        External := None |} c)
    else mret c).

(** Lines 125-133: the runtime engine. *)
Definition runtimeEngine (d : gmap string value) : InitConfiguration -> M InitConfiguration :=
  whenOk d "runtime.0.engine" (fun runtimeEngineOpt c =>
    name ← assertString runtimeEngineOpt;
    match DefCriSocket common !! name with
    | Some socket =>
        _ ← store (kubeletArgs c) "container-runtime-endpoint" ("unix://" +:+ socket);
        mret (set_CRISocket socket c)
    | None => fail (unknownRuntimeEngine name)
    end).

(** Lines 135-148: the extra arguments of the four components. *)
Definition runtimeExtraArgs (d : gmap string value) : InitConfiguration -> M InitConfiguration :=
  whenOk d "runtime.0.extra_args.0" (fun _ c =>
    c ← whenOk d "runtime.0.extra_args.0.api_server" (fun args c =>
           m ← assertMap args; mret (set_APIServerExtraArgs m c)) c;
    c ← whenOk d "runtime.0.extra_args.0.controller_manager" (fun args c =>
           m ← assertMap args; mret (set_ControllerManagerExtraArgs m c)) c;
    c ← whenOk d "runtime.0.extra_args.0.scheduler" (fun args c =>
           m ← assertMap args; mret (set_SchedulerExtraArgs m c)) c;
    whenOk d "runtime.0.extra_args.0.kubelet" (fun args c =>
      m ← assertMap args; mret (set_KubeletExtraArgs m c)) c).

(** Lines 124-149. *)
Definition runtimeBlock (d : gmap string value) : InitConfiguration -> M InitConfiguration :=
  whenOk d "runtime.0" (fun _ c =>
    c ← runtimeEngine d c;
    runtimeExtraArgs d c).

(** [if m == nil { m = map[string]string{} }; m[k] = v], giving the map. *)
Definition storeAlloc (m : mapref) (k v : string) : M mapref :=
  l ← (match m with Some l => mret l | None => newMap end);
  _ ← store (Some l) k v;
  mret (Some l).

(** Lines 154-169: the cloud provider. *)
Definition cloudProviderBlock (d : gmap string value) : InitConfiguration -> M InitConfiguration :=
  whenOk d "cloud.0.provider" (fun cloudProvRaw c =>
    s ← assertString cloudProvRaw;
    if (0 <? String.length s)%nat then
      m ← storeAlloc (kubeletArgs c) "cloud-provider" "external";
      let c := set_KubeletExtraArgs m c in
      m ← storeAlloc (apiServerArgs c) "cloud-provider" "external";
      let c := set_APIServerExtraArgs m c in
      m ← storeAlloc (controllerManagerArgs c) "cloud-provider" "external";
      mret (set_ControllerManagerExtraArgs m c)
    else mret c).

(** Lines 171-178. *)
Definition cniBlock (d : gmap string value) : InitConfiguration -> M InitConfiguration :=
  whenOk d "cni.0" (fun _ c =>
    c ← whenOk d "cni.0.bin_dir" (fun arg c =>
           s ← assertString arg;
           _ ← store (kubeletArgs c) "cni-bin-dir" s; mret c) c;
    whenOk d "cni.0.conf_dir" (fun arg c =>
      s ← assertString arg;
      _ ← store (kubeletArgs c) "cni-conf-dir" s; mret c) c).

(** Lines 180-182. *)
Definition versionBlock (d : gmap string value) : InitConfiguration -> M InitConfiguration :=
  whenOk d "version" (fun versionOpt c =>
    s ← assertString versionOpt;
    if (0 <? String.length s)%nat then
      s ← assertString versionOpt; mret (set_KubernetesVersion s c)
    else mret c).

(** Lines 184-191: the external datastore. *)
Definition etcdBlock (d : gmap string value) : InitConfiguration -> M InitConfiguration :=
  whenOk d "etcd.0" (fun _ c =>
    whenOk d "etcd.0.endpoints" (fun etcdServersLst c =>
      let e := match External (cc_Etcd (Cluster c)) with
               | None => {| ee_Endpoints := [] |}
               | Some e => e
               end in
      l ← assertStrings etcdServersLst;
      mret (set_EtcdExternal (Some (set_Endpoints l e)) c)) c).

(** Lines 193-200: the bootstrap token. *)
Definition tokenBlock (token : string) (c : InitConfiguration) : M InitConfiguration :=
  if (0 <? String.length token)%nat then
    t ← try (NewBootstrapToken common token);
    mret (set_BootstrapTokens [set_Expires None t] c)
  else mret c.

(** Everything before the token (lines 35-191). *)
Definition fromSourceTree (d : gmap string value) : M InitConfiguration :=
  c ← apiBlock d baseConfig;
  c ← networkBlock d c;
  c ← imagesBlock d c;
  c ← runtimeBlock d c;
  c ← cloudProviderBlock d c;
  c ← cniBlock d c;
  c ← versionBlock d c;
  etcdBlock d c.

Definition dataSourceToInitConfig (d : gmap string value) (token : string)
  : M InitConfiguration :=
  c ← fromSourceTree d;
  tokenBlock token c.

End Derivation.

(** ** A sample instance of the package, for the examples *)

(** The theorems hold for every instance of [Common]. The examples need one
    to run: the engines [docker] and [containerd] with a socket each, a
    default map with one entry, and a constructor of tokens. *)

Module Sample.

(** A credential constructor in the style of kubeadm: an identifier of six
    and a secret of sixteen characters joined by a dot, with an expiry set. *)
Definition newToken (token : string) : BootstrapToken + error :=
  match Bytes.IndexByte token "." with
  | Some 6%nat =>
      if (String.length token =? 23)%nat then
        inl {| Token := Some {| ID := Bytes.upto 6 token; Secret := Bytes.from 7 token |};
               Description := ""; TTL := Some 86400%Z; Expires := Some 1572566400%Z;
               Usages := ["signing"; "authentication"];
               Groups := ["system:bootstrappers:kubeadm:default-node-token"] |}
      else inr (TokenError token)
  | _ => inr (TokenError token)
  end.

Definition pkg : Common :=
  {| DefKubeletSettings := Some 1%positive;
     DefAPIServerPort := 6443;
     DefResolvUpstreamConf := "/etc/resolv.conf.upstream";
     DefCriSocket := {[ "docker" := "/var/run/dockershim.sock";
                        "containerd" := "/var/run/containerd/containerd.sock" ]};
     AddressWithPort := fun host port =>
       if Bytes.contains host ":" then host else host +:+ ":6443";
     NewBootstrapToken := newToken |}.

(** The heap at start: the default kubelet settings. *)
Definition heap0 : gmap loc (gmap string string) :=
  {[ 1%positive := {[ "network-plugin" := "cni" ]} ]}.

End Sample.

(** * The vocabulary of the properties *)

(** The string a string-typed value holds. *)
Definition stringOf (v : value) : string :=
  match v with VString s => s | _ => "" end.

(** Does the tree ask for an image of the embedded datastore? *)
Definition etcdImageSupplied (d : gmap string value) : bool :=
  match GetOk d "images.0" with
  | Some _ =>
      negb (Bytes.isEmpty (stringOf (Get d "images.0.etcd_version"))) ||
      negb (Bytes.isEmpty (stringOf (Get d "images.0.etcd_repo")))
  | None => false
  end.

Definition localEtcdOf (d : gmap string value) : LocalEtcd :=
  {| le_ImageMeta := {| im_ImageRepository := stringOf (Get d "images.0.etcd_repo");
                        im_ImageTag := stringOf (Get d "images.0.etcd_version") |} |}.

(** The map a component ends up with after lines 135-148. *)
Definition argsAfter (d : gmap string value) (path : string) (old : mapref) : mapref :=
  match GetOk d "runtime.0.extra_args.0", GetOk d path with
  | Some _, Some (VMap m) => m
  | _, _ => old
  end.

Definition withCloudProvider (m : gmap string string) : gmap string string :=
  <["cloud-provider" := "external"]> m.

(** The external datastore record after lines 184-191. *)
Definition externalAfter (d : gmap string value) (old : option ExternalEtcd) : option ExternalEtcd :=
  match GetOk d "etcd.0", GetOk d "etcd.0.endpoints" with
  | Some _, Some (VStrings l) => Some {| ee_Endpoints := l |}
  | _, _ => old
  end.

(** A pattern that has run into [NoMatch] on its left spine matches nothing. *)
Fixpoint dead (r : regexp.Regexp) : bool :=
  match r with
  | regexp.NoMatch => true
  | regexp.Concat r1 _ => dead r1
  | regexp.Alternate r1 r2 => dead r1 && dead r2
  | _ => false
  end.

Fixpoint allDigits (s : string) : bool :=
  match s with
  | EmptyString => true
  | String c s' => Bytes.isDigit c && allDigits s'
  end.

(** The value of the digits [s] read after the value [n]. *)
Fixpoint decimalValue (s : string) (n : Z) : Z :=
  match s with
  | EmptyString => n
  | String c s' => decimalValue s' (n * 10 + Bytes.digitVal c)
  end.

Definition unsignedPart (s : string) : string :=
  match s with
  | String c rest => if Ascii.eqb c "-" || Ascii.eqb c "+" then rest else s
  | EmptyString => s
  end.

Definition isNegative (s : string) : bool :=
  match s with
  | String c _ => Ascii.eqb c "-"
  | EmptyString => false
  end.

(** An optional sign followed by at least one decimal digit. *)
Definition isSignedDecimal (s : string) : bool :=
  negb (Bytes.isEmpty (unsignedPart s)) && allDigits (unsignedPart s).

Definition signedValue (s : string) : Z :=
  let u := decimalValue (unsignedPart s) 0 in
  if isNegative s then (- u)%Z else u.

(** A tree with nothing but a network block. *)
Definition networkOnly (d : gmap string value) : Prop :=
  GetOk d "api.0" = None /\ GetOk d "images.0" = None /\ GetOk d "runtime.0" = None /\
  GetOk d "cloud.0.provider" = None /\ GetOk d "cni.0" = None /\
  GetOk d "version" = None /\ GetOk d "etcd.0" = None.

(** A tree that sets the DNS domain and nothing else. *)
Definition dnsTree (dom : string) : gmap string value :=
  {[ "network.0" := VOther; "network.0.dns.0" := VOther;
     "network.0.dns.0.domain" := VString dom ]}.

(** The heap a run leaves is the heap the next run of the process starts in. *)
Definition secondRun (common : Common) (d1 : gmap string value) (token1 : string)
    (d2 : gmap string value) (token2 : string) (h : heap)
  : outcome InitConfiguration * heap :=
  dataSourceToInitConfig common d2 token2 (snd (dataSourceToInitConfig common d1 token1 h)).

(** The kubelet settings a run hands to its caller. *)
Definition kubeletSettings (r : outcome InitConfiguration * heap)
  : option (gmap string string) :=
  match fst r with
  | Ok c => Some (contents (snd r) (kubeletArgs c))
  | _ => None
  end.

(** A tree that names an upstream resolver and nothing else. *)
Definition resolverTree : gmap string value :=
  {[ "network.0" := VOther; "network.0.dns.0" := VOther;
     "network.0.dns.0.upstream" := VList [VString "8.8.8.8"] ]}.

(** A tree whose internal endpoint has the port [-1]. *)
Definition negativePortTree : gmap string value :=
  {[ "api.0" := VOther; "api.0.internal" := VString "10.0.0.5:-1" ]}.




(** The paths of the extra arguments of the four components. *)
Definition extraArgsPaths : list string :=
  ["runtime.0.extra_args.0.api_server"; "runtime.0.extra_args.0.controller_manager";
   "runtime.0.extra_args.0.scheduler"; "runtime.0.extra_args.0.kubelet"].

(** A tree that brings extra arguments for the kubelet, a
    [map[string]interface{}]. *)
Definition extraArgsTree : gmap string value :=
  {[ "runtime.0" := VOther; "runtime.0.extra_args.0" := VOther;
     "runtime.0.extra_args.0.kubelet" := VOther ]}.

(** A tree that names the docker engine and brings extra arguments for the
    kubelet. *)
Definition engineAndArgsTree : gmap string value :=
  {[ "runtime.0" := VOther; "runtime.0.engine" := VString "docker";
     "runtime.0.extra_args.0" := VOther;
     "runtime.0.extra_args.0.kubelet" := VOther ]}.

(** Does the tree name a cloud provider? (line 154) *)
Definition cloudProviderNamed (d : gmap string value) : bool :=
  match GetOk d "cloud.0.provider" with
  | Some (VString s) => negb (Bytes.isEmpty s)
  | _ => false
  end.

(** A tree with a cloud provider. *)
Definition cloudTree : gmap string value :=
  {[ "cloud.0" := VOther; "cloud.0.provider" := VString "aws" ]}.

Definition absent (d : gmap string value) (path : string) : Prop := GetOk d path = None.

(** A tree whose images block is present and sets no repository. *)
Definition imagesOnlyTree : gmap string value :=
  {[ "images.0" := VOther; "images.0.etcd_version" := VString "3.3.10" ]}.

(** The host and the port of the internal endpoint, when the tree sets one
    that splits. *)
Definition internalHostPort (d : gmap string value) : option (string * string) :=
  match GetOk d "api.0", GetOk d "api.0.internal" with
  | Some _, Some (VString s) =>
      match net.SplitHostPort s with
      | inl hp => Some hp
      | inr _ => None
      end
  | _, _ => None
  end.

(** The error the internal endpoint runs into, if any (lines 53-63). *)
Definition internalError (internal : string) : option error :=
  match net.SplitHostPort internal with
  | inr e => Some e
  | inl (_, port) =>
      if Bytes.isEmpty port then None
      else match strconv.Atoi port with
           | inr e => Some e
           | inl _ => None
           end
  end.

(** The alternate names line 71 takes from the tree: the elements of a
    [[]string]. *)
Definition altNames (d : gmap string value) : list string :=
  match GetOk d "api.0", GetOk d "api.0.alt_names" with
  | Some _, Some (VStrings l) => l
  | _, _ => []
  end.

(** The certificate names a tree asks for: the host of the internal
    endpoint, then the alternate names. *)
Definition expectedCertSANs (d : gmap string value) : list string :=
  (match internalHostPort d with
   | Some (host, _) => [host]
   | None => []
   end ++ altNames d)%list.

(** A string without colon and square brackets. *)
Fixpoint plainPart (s : string) : bool :=
  match s with
  | EmptyString => true
  | String c s' =>
      negb (Ascii.eqb c ":") && negb (Ascii.eqb c "[") && negb (Ascii.eqb c "]")
      && plainPart s'
  end.

(** The keys the function assigns in maps. *)
Definition writtenKeys : list string :=
  ["resolv-conf"; "container-runtime-endpoint"; "cloud-provider";
   "cni-bin-dir"; "cni-conf-dir"].

(** From [h] to [h'] no entry of a map has gone, and the entries under other
    keys than the written ones are the same. *)
Definition keepsEntries (h h' : heap) : Prop :=
  forall (l : loc) (k : string),
    (~ In k writtenKeys -> (h' !!! l) !! k = (h !!! l) !! k) /\
    (is_Some ((h !!! l) !! k) -> is_Some ((h' !!! l) !! k)).

(** A computation that keeps the entries, however it ends. *)
Definition tidy {A} (m : M A) : Prop := forall h, keepsEntries h (snd (m h)).

(** * Properties *)

(** ** Running computations *)

Lemma bind_run {A B} (m : M A) (f : A -> M B) (h : heap) :
  (m ≫= f) h =
  match m h with
  | (Ok a, h1) => f a h1
  | (Err e, h1) => (Err e, h1)
  | (Panic, h1) => (Panic, h1)
  end.
Proof. reflexivity. Qed.

Lemma bind_ok_inv {A B} (m : M A) (f : A -> M B) (h h' : heap) (b : B) :
  (m ≫= f) h = (Ok b, h') ->
  exists a h1, m h = (Ok a, h1) /\ f a h1 = (Ok b, h').
Proof.
  rewrite bind_run. destruct (m h) as [[a|e|] h1]; intros E; try discriminate E.
  exists a, h1. split; [reflexivity | exact E].
Qed.

Lemma bind_ok {A B} (m : M A) (f : A -> M B) (h h1 : heap) (a : A) :
  m h = (Ok a, h1) -> (m ≫= f) h = f a h1.
Proof. intros E. rewrite bind_run, E. reflexivity. Qed.

Lemma whenOk_absent {A} d key (body : value -> A -> M A) c :
  GetOk d key = None -> whenOk d key body c = mret c.
Proof. unfold whenOk. intros ->. reflexivity. Qed.

Lemma whenOk_present {A} d key (body : value -> A -> M A) c v :
  GetOk d key = Some v -> whenOk d key body c = body v c.
Proof. unfold whenOk. intros ->. reflexivity. Qed.

(** Compute field assignments and field reads. *)
Ltac norm_fields :=
  cbv beta iota zeta delta
    [set_Cluster set_ControlPlaneEndpoint set_KubernetesVersion set_ImageRepository
     set_Etcd set_Networking set_APIServer set_ControllerManagerExtraArgs
     set_SchedulerExtraArgs set_APIServerExtraArgs set_CertSANs set_PodSubnet
     set_ServiceSubnet set_DNSDomain set_EtcdExternal set_BootstrapTokens
     set_CRISocket set_KubeletExtraArgs set_AdvertiseAddress set_BindPort
     set_Endpoints baseConfig
     kubeletArgs apiServerArgs controllerManagerArgs schedulerArgs certSANs
     Cluster BootstrapTokens NodeRegistration LocalAPIEndpoint
     cc_Etcd cc_Networking KubernetesVersion ControlPlaneEndpoint cc_APIServer
     ControllerManager Scheduler ImageRepository
     Local External ServiceSubnet PodSubnet DNSDomain cp_ExtraArgs api_ExtraArgs
     CertSANs CRISocket KubeletExtraArgs AdvertiseAddress BindPort ee_Endpoints] in *.

(** Unfold the monad and split on every test the computation makes. *)
Ltac run_block :=
  unfold whenOk, assertString, assertStrings, assertList, assertMap, try,
    store, fail, panic, mbind, M_bind, mret, M_ret in *;
  norm_fields;
  repeat (case_match; simplify_eq/=; norm_fields); simplify_eq/=.

(** A record is its fields. *)
Ltac fields c :=
  destruct c as [[[? ?] [? ? ?] ? ? [? ?] [?] [?] ?] ? [? ?] [? ?]].

Section BlockFacts.

Variable common : Common.
Implicit Types (d : gmap string value) (c : InitConfiguration) (h : heap).

(** *** What each block may change *)

Lemma apiBlock_ok d c h c' h' :
  apiBlock common d c h = (Ok c', h') ->
  h' = h /\
  exists cpe addr port sans,
    c' = set_ControlPlaneEndpoint cpe
           (set_AdvertiseAddress addr (set_BindPort port (set_CertSANs sans c))) /\
    (GetOk d "api.0.external" = None -> cpe = ControlPlaneEndpoint (Cluster c)) /\
    (GetOk d "api.0.internal" = None ->
       addr = AdvertiseAddress (LocalAPIEndpoint c) /\
       port = BindPort (LocalAPIEndpoint c) /\
       (GetOk d "api.0.alt_names" = None -> sans = certSANs c)).
Proof.
  intros E. fields c. unfold apiBlock, apiInternal in E. 
  run_block; (split; [reflexivity|]); do 4 eexists;
    (split; [norm_fields; reflexivity|]); repeat split; intros; congruence.
Qed.


Lemma networkBlock_ok d c h c' h' :
  networkBlock common d c h = (Ok c', h') ->
  (exists ps ss dd,
    c' = set_PodSubnet ps (set_ServiceSubnet ss (set_DNSDomain dd c)) /\
    (GetOk d "network.0.pods" = None -> ps = PodSubnet (cc_Networking (Cluster c))) /\
    (GetOk d "network.0.services" = None ->
       ss = ServiceSubnet (cc_Networking (Cluster c))) /\
    (GetOk d "network.0.dns.0.domain" = None ->
       dd = DNSDomain (cc_Networking (Cluster c)))) /\
  (h' = h \/
   exists g, kubeletArgs c = Some g /\
     h' = <[g := <["resolv-conf" := DefResolvUpstreamConf common]> (h !!! g)]> h) /\
  (GetOk d "network.0.dns.0.upstream" = None -> h' = h).
Proof.
  intros E. fields c. unfold networkBlock, dnsDomainStep, dnsUpstreamStep in E.
  run_block.
  all: split; [do 3 eexists; (split; [norm_fields; reflexivity|]);
               repeat split; intros; congruence|].
  all: split; [|intros; congruence].
  all: first [left; reflexivity | right; eexists; split; reflexivity].
Qed.

Lemma imagesBlock_ok d c h c' h' :
  imagesBlock d c h = (Ok c', h') ->
  h' = h /\
  c' = set_ImageRepository
         (match GetOk d "images.0" with
          | Some _ => stringOf (Get d "images.0.kube_repo")
          | None => ImageRepository (Cluster c)
          end)
         (set_Etcd (if etcdImageSupplied d
                    then {| Local := Some (localEtcdOf d); External := None |}
                    else cc_Etcd (Cluster c)) c).
Proof.
  intros E. fields c. unfold imagesBlock in E. unfold etcdImageSupplied, localEtcdOf.
  run_block; (split; [reflexivity|]); norm_fields; simpl in *;
    repeat (match goal with H : ?x = _ |- context [?x] => rewrite H end; simpl);
    try reflexivity; try congruence.
Qed.

Lemma runtimeEngine_ok d c h c' h' :
  runtimeEngine common d c h = (Ok c', h') ->
  (GetOk d "runtime.0.engine" = None /\ c' = c /\ h' = h) \/
  (exists name socket g,
     GetOk d "runtime.0.engine" = Some (VString name) /\
     DefCriSocket common !! name = Some socket /\
     kubeletArgs c = Some g /\
     c' = set_CRISocket socket c /\
     h' = <[g := <["container-runtime-endpoint" := "unix://" +:+ socket]> (h !!! g)]> h).
Proof.
  intros E. unfold runtimeEngine in E. run_block.
  - right. do 3 eexists. repeat split; eauto.
  - left. auto.
Qed.

Lemma runtimeExtraArgs_ok d c h c' h' :
  runtimeExtraArgs d c h = (Ok c', h') ->
  h' = h /\
  c' = set_APIServerExtraArgs
         (argsAfter d "runtime.0.extra_args.0.api_server" (apiServerArgs c))
         (set_ControllerManagerExtraArgs
            (argsAfter d "runtime.0.extra_args.0.controller_manager"
               (controllerManagerArgs c))
            (set_SchedulerExtraArgs
               (argsAfter d "runtime.0.extra_args.0.scheduler" (schedulerArgs c))
               (set_KubeletExtraArgs
                  (argsAfter d "runtime.0.extra_args.0.kubelet" (kubeletArgs c)) c))).
Proof.
  intros E. fields c. unfold runtimeExtraArgs in E. unfold argsAfter.
  run_block; (split; [reflexivity|]);
    repeat (match goal with H : ?x = _ |- context [?x] => rewrite H end);
    reflexivity.
Qed.

Lemma runtimeBlock_ok d c h c' h' :
  runtimeBlock common d c h = (Ok c', h') ->
  (GetOk d "runtime.0" = None /\ c' = c /\ h' = h) \/
  (GetOk d "runtime.0" <> None /\
   exists c1 h1, runtimeEngine common d c h = (Ok c1, h1) /\
                 runtimeExtraArgs d c1 h1 = (Ok c', h')).
Proof.
  unfold runtimeBlock, whenOk. destruct (GetOk d "runtime.0") as [v|].
  - intros E. right. split; [discriminate|]. apply bind_ok_inv in E. exact E.
  - intros E. left. inversion E. auto.
Qed.

(** *** Writes to the heap *)

Lemma store_lookup (g : loc) (k0 v : string) h (x : loc) (k : string) :
  (<[g := <[k0 := v]> (h !!! g)]> h !!! x) !! k =
  if decide (x = g /\ k = k0) then Some v else (h !!! x) !! k.
Proof.
  destruct (decide (x = g)) as [->|Hx].
  - rewrite lookup_total_insert_eq. destruct (decide (k = k0)) as [->|Hk].
    + rewrite lookup_insert_eq. rewrite decide_True by auto. reflexivity.
    + rewrite lookup_insert_ne by auto. rewrite decide_False by tauto. reflexivity.
  - rewrite lookup_total_insert_ne by auto. rewrite decide_False by tauto. reflexivity.
Qed.

Lemma fresh_empty h : h !!! fresh (dom h) = (∅ : gmap string string).
Proof.
  rewrite lookup_total_alt.
  rewrite (not_elem_of_dom_1 h (fresh (dom h)) (is_fresh (dom h))). reflexivity.
Qed.

Lemma storeAlloc_run (m : mapref) (k v : string) h :
  exists l h',
    storeAlloc m k v h = (Ok (Some l), h') /\
    (forall l0, m = Some l0 -> l = l0) /\
    h !!! l = contents h m /\
    (forall x, h' !!! x = if decide (x = l) then <[k := v]> (h !!! x) else h !!! x).
Proof.
  destruct m as [l0|].
  - exists l0, (<[l0 := <[k := v]> (h !!! l0)]> h). repeat split.
    + congruence.
    + intros x. case_decide.
      * subst. apply lookup_total_insert_eq.
      * apply lookup_total_insert_ne. congruence.
  - exists (fresh (dom h)).
    exists (<[fresh (dom h) := <[k := v]> (<[fresh (dom h) := ∅]> h !!! fresh (dom h))]>
              (<[fresh (dom h) := ∅]> h)).
    repeat split.
    + discriminate.
    + apply fresh_empty.
    + intros x. case_decide.
      * subst. rewrite !lookup_total_insert_eq, fresh_empty. reflexivity.
      * rewrite !lookup_total_insert_ne by congruence. reflexivity.
Qed.

(** *** The cloud-provider block *)

Lemma withCloudProvider_idem m : withCloudProvider (withCloudProvider m) = withCloudProvider m.
Proof. apply insert_insert_eq. Qed.

Lemma withCloudProvider_nonempty m : withCloudProvider m <> ∅.
Proof. apply insert_non_empty. Qed.

Lemma cloudProviderBlock_active d c h p :
  GetOk d "cloud.0.provider" = Some (VString p) -> p <> "" ->
  exists lk la lc h',
    cloudProviderBlock d c h =
      (Ok (set_ControllerManagerExtraArgs (Some lc)
             (set_APIServerExtraArgs (Some la)
                (set_KubeletExtraArgs (Some lk) c))), h') /\
    (forall l, kubeletArgs c = Some l -> lk = l) /\
    (forall l, apiServerArgs c = Some l -> la = l) /\
    (forall l, controllerManagerArgs c = Some l -> lc = l) /\
    h' !!! lk = withCloudProvider (contents h (kubeletArgs c)) /\
    h' !!! la = withCloudProvider (contents h (apiServerArgs c)) /\
    h' !!! lc = withCloudProvider (contents h (controllerManagerArgs c)) /\
    (forall x, x <> lk -> x <> la -> x <> lc -> h' !!! x = h !!! x) /\
    (forall x, h' !!! x = h !!! x \/ h' !!! x = withCloudProvider (h !!! x)).
Proof.
  intros Hp Hne.
  destruct (storeAlloc_run (kubeletArgs c) "cloud-provider" "external" h)
    as (lk & h1 & E1 & Lk & Ck & W1).
  destruct (storeAlloc_run (apiServerArgs c) "cloud-provider" "external" h1)
    as (la & h2 & E2 & La & Ca & W2).
  destruct (storeAlloc_run (controllerManagerArgs c) "cloud-provider" "external" h2)
    as (lc & h3 & E3 & Lc & Cc & W3).
  fold withCloudProvider in W1, W2, W3.
  assert (W : forall x, h3 !!! x =
               if decide (x = lk \/ x = la \/ x = lc)
               then withCloudProvider (h !!! x) else h !!! x).
  { intros x. rewrite W3, W2, W1.
    repeat case_decide; rewrite ?withCloudProvider_idem; try reflexivity; tauto. }
  assert (Ha : h !!! la = contents h (apiServerArgs c)).
  { destruct (apiServerArgs c) as [l|] eqn:Ea.
    - rewrite (La l eq_refl). reflexivity.
    - simpl in *. rewrite W1 in Ca. case_decide; [|exact Ca].
      exfalso. exact (withCloudProvider_nonempty _ Ca). }
  assert (Hc : h !!! lc = contents h (controllerManagerArgs c)).
  { destruct (controllerManagerArgs c) as [l|] eqn:Ec.
    - rewrite (Lc l eq_refl). reflexivity.
    - simpl in *. rewrite W2, W1 in Cc.
      repeat case_decide; rewrite ?withCloudProvider_idem in Cc; try exact Cc;
        exfalso; exact (withCloudProvider_nonempty _ Cc). }
  exists lk, la, lc, h3. split.
  { unfold cloudProviderBlock, whenOk. rewrite Hp. simpl. rewrite bind_run. simpl.
    destruct p as [|a p]; [congruence|]. simpl.
    rewrite (bind_ok _ _ _ _ _ E1).
    change (apiServerArgs (set_KubeletExtraArgs (Some lk) c)) with (apiServerArgs c).
    rewrite (bind_ok _ _ _ _ _ E2).
    change (controllerManagerArgs
              (set_APIServerExtraArgs (Some la) (set_KubeletExtraArgs (Some lk) c)))
      with (controllerManagerArgs c).
    rewrite (bind_ok _ _ _ _ _ E3). reflexivity. }
  split; [exact Lk|]. split; [exact La|]. split; [exact Lc|].
  split; [rewrite W, decide_True by auto; congruence|].
  split; [rewrite W, decide_True by auto; congruence|].
  split; [rewrite W, decide_True by auto; congruence|].
  split.
  - intros x ? ? ?. rewrite W, decide_False by tauto. reflexivity.
  - intros x. rewrite W. case_decide; auto.
Qed.

Lemma cloudProviderBlock_ok d c h c' h' :
  cloudProviderBlock d c h = (Ok c', h') ->
  (c' = c /\ h' = h /\
   (GetOk d "cloud.0.provider" = None \/ GetOk d "cloud.0.provider" = Some (VString ""))) \/
  (exists p, GetOk d "cloud.0.provider" = Some (VString p) /\ p <> "").
Proof.
  unfold cloudProviderBlock, whenOk.
  destruct (GetOk d "cloud.0.provider") as [[p| | | |]|]; simpl;
    try (rewrite bind_run; simpl; discriminate).
  - destruct p as [|a p].
    + rewrite bind_run. simpl. intros E. inversion E. left. auto.
    + intros _. right. eexists. split; [reflexivity|discriminate].
  - intros E. inversion E. left. auto.
Qed.

(** *** The remaining blocks *)

Lemma cniBlock_ok d c h c' h' :
  cniBlock d c h = (Ok c', h') ->
  c' = c /\
  (forall x k, kubeletArgs c <> Some x \/ (k <> "cni-bin-dir" /\ k <> "cni-conf-dir") ->
     (h' !!! x) !! k = (h !!! x) !! k) /\
  (GetOk d "cni.0.bin_dir" = None -> GetOk d "cni.0.conf_dir" = None -> h' = h).
Proof.
  intros E. unfold cniBlock in E. unfold kubeletArgs. run_block.
  all: split; [reflexivity|]. 
  all: split; [|intros; congruence].
  all: intros x k Hxk; rewrite ?store_lookup;
    repeat (rewrite decide_False; [|intros [-> ->]; destruct Hxk as [?|[? ?]]; congruence]);
    reflexivity.
Qed.

Lemma versionBlock_ok d c h c' h' :
  versionBlock d c h = (Ok c', h') ->
  h' = h /\
  exists v, c' = set_KubernetesVersion v c /\
    (GetOk d "version" = None -> v = KubernetesVersion (Cluster c)).
Proof.
  intros E. fields c. unfold versionBlock in E.
  run_block; (split; [reflexivity|]); eexists; (split; [reflexivity|]);
    intros; congruence.
Qed.

Lemma etcdBlock_ok d c h c' h' :
  etcdBlock d c h = (Ok c', h') ->
  h' = h /\ c' = set_EtcdExternal (externalAfter d (External (cc_Etcd (Cluster c)))) c.
Proof.
  intros E. fields c. unfold etcdBlock in E. unfold externalAfter.
  run_block; (split; [reflexivity|]);
    repeat (match goal with H : ?x = _ |- context [?x] => rewrite H end);
    reflexivity.
Qed.

Lemma tokenBlock_ok token c h c' h' :
  tokenBlock common token c h = (Ok c', h') ->
  h' = h /\
  (token = "" /\ c' = c \/
   exists t, token <> "" /\ NewBootstrapToken common token = inl t /\
             c' = set_BootstrapTokens [set_Expires None t] c).
Proof.
  unfold tokenBlock. destruct token as [|a token]; simpl.
  - intros E. inversion E. auto.
  - rewrite bind_run. destruct (NewBootstrapToken common (String a token)) as [t|e] eqn:Et;
      simpl; intros E; inversion E.
    split; [reflexivity|]. right. exists t. repeat split. discriminate.
Qed.

End BlockFacts.

(** ** Trees as the library hands them out *)

Lemma fromResourceData_lookup d key v :
  fromResourceData d -> GetOk d key = Some v -> handedOut v = true.
Proof. intros Hd Hv. exact (Hd key v Hv). Qed.


Lemma assertMap_handedOut v h :
  handedOut v = true -> assertMap v h = (Panic, h).
Proof. destruct v; intros Hv; try discriminate Hv; reflexivity. Qed.

Lemma argsAfter_handedOut d path old :
  fromResourceData d -> argsAfter d path old = old.
Proof.
  intros Hd. unfold argsAfter. destruct (GetOk d "runtime.0.extra_args.0") as [v0|]; [|reflexivity].
  destruct (GetOk d path) as [v|] eqn:Hv; [|reflexivity].
  pose proof (fromResourceData_lookup _ _ _ Hd Hv) as Hh.
  destruct v; try discriminate Hh; reflexivity.
Qed.


Lemma altNames_handedOut d : fromResourceData d -> altNames d = [].
Proof.
  intros Hd. unfold altNames. destruct (GetOk d "api.0") as [v0|]; [|reflexivity].
  destruct (GetOk d "api.0.alt_names") as [v|] eqn:Hv; [|reflexivity].
  pose proof (fromResourceData_lookup _ _ _ Hd Hv) as Hh.
  destruct v; try discriminate Hh; reflexivity.
Qed.

(** Prove that a tree written out entry by entry is one the library hands out. *)
Ltac handed_out :=
  unfold fromResourceData;
  repeat (apply map_Forall_insert_2; [reflexivity|]);
  first [apply map_Forall_empty | apply map_Forall_singleton; reflexivity].

(** ** The pattern search *)

Lemma dead_not_nullable r : dead r = true -> regexp.nullable r = false.
Proof.
  induction r; simpl; intros D; try discriminate; try reflexivity.
  - rewrite IHr1 by exact D. reflexivity.
  - apply andb_prop in D. destruct D as [D1 D2]. rewrite IHr1, IHr2; auto.
Qed.

Lemma dead_deriv c r : dead r = true -> dead (regexp.deriv c r) = true.
Proof.
  induction r; simpl; intros D; try discriminate; try reflexivity.
  - rewrite (dead_not_nullable r1 D). simpl. auto.
  - apply andb_prop in D. destruct D as [D1 D2]. rewrite IHr1, IHr2; auto.
Qed.

Lemma dead_matchPrefix s : forall r, dead r = true -> regexp.matchPrefix r s = false.
Proof.
  induction s as [|c s IH]; intros r D; simpl; rewrite (dead_not_nullable r D); simpl.
  - reflexivity.
  - apply IH, dead_deriv, D.
Qed.

Lemma matchAll_matchPrefix s : forall r,
  regexp.matchAll r s = true -> regexp.matchPrefix r s = true.
Proof.
  induction s as [|c s IH]; intros r E; simpl in *.
  - rewrite E. reflexivity.
  - rewrite (IH _ E). apply orb_true_r.
Qed.

Lemma matchPrefix_MatchString r s :
  regexp.matchPrefix r s = true -> regexp.MatchString r s = true.
Proof. destruct s; simpl; intros ->; reflexivity. Qed.

(** One byte of [[a-z0-9]] is a match of the pattern already; a byte outside
    starts none. *)
Lemma dnsRegexp_first c s :
  regexp.matchPrefix dnsRegexp (String c s) = lowerAlnum c.
Proof.
  cbn [regexp.matchPrefix]. unfold dnsRegexp at 1. unfold dnsLabel at 1.
  cbn [regexp.nullable andb orb].
  unfold dnsRegexp, dnsLabel. cbn [regexp.deriv regexp.nullable andb orb regexp.Quest].
  destruct (lowerAlnum c) eqn:Ec.
  - destruct s; reflexivity.
  - apply dead_matchPrefix. reflexivity.
Qed.

(** The search of the DNS pattern in a string succeeds exactly when the
    string has a byte of [[a-z0-9]] somewhere. *)
Lemma MatchString_dnsRegexp s :
  regexp.MatchString dnsRegexp s = Bytes.existsb lowerAlnum s.
Proof.
  induction s as [|c s IH].
  - reflexivity.
  - cbn [regexp.MatchString Bytes.existsb]. rewrite dnsRegexp_first, IH. reflexivity.
Qed.

(** A string that is a DNS-1123 subdomain as a whole passes the search. *)
Lemma subdomain_MatchString s :
  regexp.matchAll dnsRegexp s = true -> regexp.MatchString dnsRegexp s = true.
Proof. intros E. apply matchPrefix_MatchString, matchAll_matchPrefix, E. Qed.

(** ** Decimal integers *)

Lemma digitVal_range c : Bytes.isDigit c = true -> (0 <= Bytes.digitVal c <= 9)%Z.
Proof.
  unfold Bytes.isDigit, Bytes.digitVal. intros H.
  apply andb_prop in H. destruct H as [H1 H2].
  apply Nat.leb_le in H1. apply Nat.leb_le in H2. lia.
Qed.

Lemma decimalValue_ge s : forall n,
  (0 <= n)%Z -> allDigits s = true -> (n <= decimalValue s n)%Z.
Proof.
  induction s as [|c s IH]; intros n Hn D; simpl in *.
  - lia.
  - apply andb_prop in D. destruct D as [Dc Ds].
    pose proof (digitVal_range c Dc).
    specialize (IH (n * 10 + Bytes.digitVal c)%Z ltac:(lia) Ds). lia.
Qed.

Lemma parseUint_inl s0 s : forall n u,
  strconv.parseUint s0 s n = inl u ->
  allDigits s = true /\ u = decimalValue s n /\
  ((n <= strconv.maxUint64)%Z -> (u <= strconv.maxUint64)%Z).
Proof.
  induction s as [|c s IH]; intros n u E; simpl in *.
  - inversion E. subst. auto.
  - destruct (Bytes.isDigit c); [|discriminate].
    destruct (strconv.maxUint64 <? n * 10 + Bytes.digitVal c)%Z eqn:Hmax; [discriminate|].
    apply Z.ltb_ge in Hmax.
    destruct (IH _ _ E) as (D & V & R). auto.
Qed.

Lemma parseUint_digits s0 s : forall n,
  (0 <= n)%Z -> allDigits s = true -> (decimalValue s n <= strconv.maxUint64)%Z ->
  strconv.parseUint s0 s n = inl (decimalValue s n).
Proof.
  induction s as [|c s IH]; intros n Hn D R; simpl in *.
  - reflexivity.
  - apply andb_prop in D. destruct D as [Dc Ds]. rewrite Dc.
    pose proof (digitVal_range c Dc).
    pose proof (decimalValue_ge s (n * 10 + Bytes.digitVal c)%Z ltac:(lia) Ds).
    destruct (strconv.maxUint64 <? n * 10 + Bytes.digitVal c)%Z eqn:Hmax.
    + apply Z.ltb_lt in Hmax. lia.
    + apply IH; [lia | exact Ds | exact R].
Qed.

(** [Atoi] accepts exactly the signed decimals within the range of [int]. *)
Lemma Atoi_inl_iff s i :
  strconv.Atoi s = inl i <->
  isSignedDecimal s = true /\ i = signedValue s /\ (- 2 ^ 63 <= i < 2 ^ 63)%Z.
Proof.
  unfold strconv.Atoi, isSignedDecimal, signedValue.
  destruct s as [|c rest]; [simpl; split; [discriminate | intros [? _]; discriminate]|].
  cbn [unsignedPart isNegative].
  set (u := if Ascii.eqb c "-" || Ascii.eqb c "+" then rest else String c rest).
  destruct (Bytes.isEmpty u) eqn:Eu; simpl.
  { split; [discriminate | intros [? _]; discriminate]. }
  change strconv.cutoff with (2 ^ 63)%Z.
  split.
  - destruct (strconv.parseUint (String c rest) u 0) as [un|e] eqn:Ep; [|discriminate].
    destruct (parseUint_inl _ _ _ _ Ep) as (D & V & R).
    pose proof (decimalValue_ge u 0 ltac:(lia) D) as Hge. rewrite <- V in *.
    destruct (Ascii.eqb c "-") eqn:Eneg; simpl.
    + destruct (2 ^ 63 <? un)%Z eqn:Hc; [discriminate|]. apply Z.ltb_ge in Hc.
      intros E. inversion E. subst i. repeat split; auto; lia.
    + destruct (2 ^ 63 <=? un)%Z eqn:Hc; [discriminate|]. apply Z.leb_gt in Hc.
      intros E. inversion E. subst i. repeat split; auto; lia.
  - intros (D & V & R).
    assert (Hu : (0 <= decimalValue u 0)%Z) by (apply decimalValue_ge; [lia|exact D]).
    rewrite (parseUint_digits (String c rest) u 0 ltac:(lia) D).
    2:{ unfold strconv.maxUint64. destruct (Ascii.eqb c "-"); lia. }
    destruct (Ascii.eqb c "-") eqn:Eneg; simpl.
    + destruct (2 ^ 63 <? decimalValue u 0)%Z eqn:Hc.
      * apply Z.ltb_lt in Hc. lia.
      * congruence.
    + destruct (2 ^ 63 <=? decimalValue u 0)%Z eqn:Hc.
      * apply Z.leb_le in Hc. lia.
      * congruence.
Qed.

(** ** Trees that lack a block *)

Section Absent.

Variable common : Common.
Implicit Types (d : gmap string value) (c : InitConfiguration) (h : heap).

Lemma apiBlock_absent d c h :
  GetOk d "api.0" = None -> apiBlock common d c h = (Ok c, h).
Proof. unfold apiBlock. intros E. rewrite whenOk_absent by exact E. reflexivity. Qed.

Lemma networkBlock_absent d c h :
  GetOk d "network.0" = None -> networkBlock common d c h = (Ok c, h).
Proof. unfold networkBlock. intros E. rewrite whenOk_absent by exact E. reflexivity. Qed.

Lemma imagesBlock_absent d c h :
  GetOk d "images.0" = None -> imagesBlock d c h = (Ok c, h).
Proof. unfold imagesBlock. intros E. rewrite whenOk_absent by exact E. reflexivity. Qed.

Lemma runtimeBlock_absent d c h :
  GetOk d "runtime.0" = None -> runtimeBlock common d c h = (Ok c, h).
Proof. unfold runtimeBlock. intros E. rewrite whenOk_absent by exact E. reflexivity. Qed.

Lemma cloudProviderBlock_absent d c h :
  GetOk d "cloud.0.provider" = None -> cloudProviderBlock d c h = (Ok c, h).
Proof.
  unfold cloudProviderBlock. intros E. rewrite whenOk_absent by exact E. reflexivity.
Qed.

Lemma cniBlock_absent d c h :
  GetOk d "cni.0" = None -> cniBlock d c h = (Ok c, h).
Proof. unfold cniBlock. intros E. rewrite whenOk_absent by exact E. reflexivity. Qed.

Lemma versionBlock_absent d c h :
  GetOk d "version" = None -> versionBlock d c h = (Ok c, h).
Proof. unfold versionBlock. intros E. rewrite whenOk_absent by exact E. reflexivity. Qed.

Lemma etcdBlock_absent d c h :
  GetOk d "etcd.0" = None -> etcdBlock d c h = (Ok c, h).
Proof. unfold etcdBlock. intros E. rewrite whenOk_absent by exact E. reflexivity. Qed.

Lemma tokenBlock_empty c h : tokenBlock common "" c h = (Ok c, h).
Proof. reflexivity. Qed.

Lemma networkOnly_run d h :
  networkOnly d ->
  dataSourceToInitConfig common d "" h = networkBlock common d (baseConfig common) h.
Proof.
  intros (Ha & Hi & Hr & Hc & Hn & Hv & He).
  unfold dataSourceToInitConfig, fromSourceTree.
  rewrite bind_run, bind_run, apiBlock_absent by exact Ha.
  rewrite bind_run.
  destruct (networkBlock common d (baseConfig common) h) as [[c|e|] h1]; try reflexivity.
  rewrite bind_run, imagesBlock_absent by exact Hi.
  rewrite bind_run, runtimeBlock_absent by exact Hr.
  rewrite bind_run, cloudProviderBlock_absent by exact Hc.
  rewrite bind_run, cniBlock_absent by exact Hn.
  rewrite bind_run, versionBlock_absent by exact Hv.
  rewrite etcdBlock_absent by exact He.
  reflexivity.
Qed.

End Absent.

(** ** The DNS domain *)

Lemma dnsTree_networkOnly dom : networkOnly (dnsTree dom).
Proof. repeat split; reflexivity. Qed.

(** Replace the lookups of a tree given by its paths by what they find. *)
Ltac lookup_paths :=
  repeat match goal with
         | |- context [GetOk ?d ?k] =>
             let v := eval vm_compute in (GetOk d k) in
             change (GetOk d k) with v
         end.

Lemma dnsTree_run common h dom :
  dataSourceToInitConfig common (dnsTree dom) "" h =
  if Bytes.existsb lowerAlnum dom
  then (Ok (set_DNSDomain dom (baseConfig common)), h)
  else (Err (invalidDNSName dom), h).
Proof.
  rewrite networkOnly_run by apply dnsTree_networkOnly.
  unfold networkBlock, dnsDomainStep, dnsUpstreamStep, whenOk. lookup_paths.
  unfold assertString, mbind, M_bind, mret, M_ret. cbn beta iota.
  rewrite MatchString_dnsRegexp.
  destruct (Bytes.existsb lowerAlnum dom); reflexivity.
Qed.

Lemma dnsDomainStep_run d c h dom :
  dnsDomainStep (<["network.0.dns.0.domain" := VString dom]> d) c h =
  if Bytes.existsb lowerAlnum dom
  then (Ok (set_DNSDomain dom c), h)
  else (Err (invalidDNSName dom), h).
Proof.
  unfold dnsDomainStep, whenOk, GetOk. rewrite lookup_insert_eq.
  cbn [assertString]. rewrite bind_run. cbn [mret M_ret].
  rewrite MatchString_dnsRegexp.
  destruct (Bytes.existsb lowerAlnum dom); reflexivity.
Qed.

(** C1. The check of the DNS domain searches the domain for a match of the
    pattern, it does not match the domain as a whole: the derivation accepts
    a domain, and stores it verbatim, as soon as one of its bytes is a
    lowercase letter or a digit, and reports the invalid name otherwise. A
    DNS-1123 subdomain is accepted, then; but so are [My_Cluster] and
    [-bad-], which are none. *)
Theorem dns_domain_check_is_a_search :
  (forall common h dom,
     dataSourceToInitConfig common (dnsTree dom) "" h =
     if Bytes.existsb lowerAlnum dom
     then (Ok (set_DNSDomain dom (baseConfig common)), h)
     else (Err (invalidDNSName dom), h)) /\
  (forall d c h dom,
     dnsDomainStep (<["network.0.dns.0.domain" := VString dom]> d) c h =
     if Bytes.existsb lowerAlnum dom
     then (Ok (set_DNSDomain dom c), h)
     else (Err (invalidDNSName dom), h)) /\
  (forall common h dom,
     regexp.matchAll dnsRegexp dom = true ->
     dataSourceToInitConfig common (dnsTree dom) "" h =
     (Ok (set_DNSDomain dom (baseConfig common)), h)) /\
  (regexp.matchAll dnsRegexp "My_Cluster" = false /\
   forall common h,
     dataSourceToInitConfig common (dnsTree "My_Cluster") "" h =
     (Ok (set_DNSDomain "My_Cluster" (baseConfig common)), h)) /\
  (regexp.matchAll dnsRegexp "-bad-" = false /\
   forall common h,
     dataSourceToInitConfig common (dnsTree "-bad-") "" h =
     (Ok (set_DNSDomain "-bad-" (baseConfig common)), h)).
Proof.
  split; [exact dnsTree_run|]. split; [exact dnsDomainStep_run|]. split.
  - intros common h dom Hm. rewrite dnsTree_run.
    rewrite <- MatchString_dnsRegexp, (subdomain_MatchString dom Hm). reflexivity.
  - split; (split; [reflexivity|]); intros common h; apply dnsTree_run.
Qed.

Lemma dns_domain_check_is_a_search_witness :
  regexp.matchAll dnsRegexp "cluster.local" = true /\
  dataSourceToInitConfig Sample.pkg (dnsTree "cluster.local") "" Sample.heap0 =
  (Ok (set_DNSDomain "cluster.local" (baseConfig Sample.pkg)), Sample.heap0).
Proof.
  split; [reflexivity|].
  exact (proj1 (proj2 (proj2 dns_domain_check_is_a_search))
           Sample.pkg Sample.heap0 "cluster.local" eq_refl).
Defined.

(** The strings the specification gives as valid domains do pass. *)
Example dns_valid_domains :
  regexp.matchAll dnsRegexp "cluster.local" = true /\
  regexp.matchAll dnsRegexp "my-cluster" = true /\
  forall common h,
    dataSourceToInitConfig common (dnsTree "cluster.local") "" h =
    (Ok (set_DNSDomain "cluster.local" (baseConfig common)), h).
Proof.
  split; [reflexivity|]. split; [reflexivity|]. intros common h.
  apply dnsTree_run.
Qed.

(** ** Two runs, one after the other *)

Lemma resolverTree_networkOnly : networkOnly resolverTree.
Proof. repeat split; reflexivity. Qed.

Lemma emptyTree_networkOnly : networkOnly ∅.
Proof. repeat split; reflexivity. Qed.

Lemma resolverTree_run common g h :
  DefKubeletSettings common = Some g ->
  dataSourceToInitConfig common resolverTree "" h =
  (Ok (baseConfig common),
   <[g := <["resolv-conf" := DefResolvUpstreamConf common]> (h !!! g)]> h).
Proof.
  intros Hg. rewrite networkOnly_run by apply resolverTree_networkOnly.
  unfold networkBlock, dnsDomainStep, dnsUpstreamStep, whenOk. lookup_paths.
  unfold assertList, mbind, M_bind, mret, M_ret. cbn beta iota.
  change (kubeletArgs (baseConfig common)) with (DefKubeletSettings common).
  rewrite Hg. reflexivity.
Qed.

Lemma emptyTree_run common h :
  dataSourceToInitConfig common ∅ "" h = (Ok (baseConfig common), h).
Proof.
  rewrite networkOnly_run by apply emptyTree_networkOnly.
  apply networkBlock_absent. reflexivity.
Qed.

(** C2. A run writes into the package-level default map: the record starts
    with the default kubelet settings themselves, not with a copy, so the
    [resolv-conf] entry set for a tree with upstream resolvers lands in the
    default map and shows in the kubelet settings of a later run on the empty
    tree, which on its own yields the settings as they were. *)
Theorem default_kubelet_settings_are_shared common g h :
  DefKubeletSettings common = Some g ->
  let conf := DefResolvUpstreamConf common in
  contents (snd (dataSourceToInitConfig common resolverTree "" h)) (DefKubeletSettings common)
    = <["resolv-conf" := conf]> (contents h (DefKubeletSettings common)) /\
  kubeletSettings (secondRun common resolverTree "" ∅ "" h)
    = Some (<["resolv-conf" := conf]> (h !!! g)) /\
  kubeletSettings (dataSourceToInitConfig common ∅ "" h) = Some (h !!! g).
Proof.
  intros Hg conf. unfold secondRun, kubeletSettings.
  rewrite (resolverTree_run common g h Hg), !emptyTree_run. cbn [fst snd].
  change (kubeletArgs (baseConfig common)) with (DefKubeletSettings common).
  rewrite Hg. cbn [contents]. rewrite lookup_total_insert_eq. auto.
Qed.

Lemma default_kubelet_settings_are_shared_witness :
  DefKubeletSettings Sample.pkg = Some 1%positive /\
  kubeletSettings (secondRun Sample.pkg resolverTree "" ∅ "" Sample.heap0)
    = Some {[ "network-plugin" := "cni"; "resolv-conf" := "/etc/resolv.conf.upstream" ]} /\
  kubeletSettings (dataSourceToInitConfig Sample.pkg ∅ "" Sample.heap0)
    = Some {[ "network-plugin" := "cni" ]}.
Proof.
  split; [reflexivity|].
  pose proof (default_kubelet_settings_are_shared Sample.pkg 1%positive Sample.heap0
                eq_refl) as (_ & H2 & H3).
  split.
  - rewrite H2. vm_compute. reflexivity.
  - rewrite H3. reflexivity.
Defined.

(** ** The run, block by block *)

Section Chain.

Variable common : Common.
Implicit Types (d : gmap string value) (c : InitConfiguration) (h : heap).

Lemma fromSourceTree_inv d h c h' :
  fromSourceTree common d h = (Ok c, h') ->
  exists c1 h1 c2 h2 c3 h3 c4 h4 c5 h5 c6 h6 c7 h7,
    apiBlock common d (baseConfig common) h = (Ok c1, h1) /\
    networkBlock common d c1 h1 = (Ok c2, h2) /\
    imagesBlock d c2 h2 = (Ok c3, h3) /\
    runtimeBlock common d c3 h3 = (Ok c4, h4) /\
    cloudProviderBlock d c4 h4 = (Ok c5, h5) /\
    cniBlock d c5 h5 = (Ok c6, h6) /\
    versionBlock d c6 h6 = (Ok c7, h7) /\
    etcdBlock d c7 h7 = (Ok c, h').
Proof.
  unfold fromSourceTree. intros E.
  apply bind_ok_inv in E. destruct E as (c1 & h1 & E1 & E).
  apply bind_ok_inv in E. destruct E as (c2 & h2 & E2 & E).
  apply bind_ok_inv in E. destruct E as (c3 & h3 & E3 & E).
  apply bind_ok_inv in E. destruct E as (c4 & h4 & E4 & E).
  apply bind_ok_inv in E. destruct E as (c5 & h5 & E5 & E).
  apply bind_ok_inv in E. destruct E as (c6 & h6 & E6 & E).
  apply bind_ok_inv in E. destruct E as (c7 & h7 & E7 & E).
  exists c1, h1, c2, h2, c3, h3, c4, h4, c5, h5, c6, h6, c7, h7. auto 10.
Qed.

Lemma dataSourceToInitConfig_inv d token h c h' :
  dataSourceToInitConfig common d token h = (Ok c, h') ->
  exists c0 h0,
    fromSourceTree common d h = (Ok c0, h0) /\ tokenBlock common token c0 h0 = (Ok c, h').
Proof. unfold dataSourceToInitConfig. apply bind_ok_inv. Qed.

(** The cloud-provider block, with what it does when it runs. *)
Lemma cloudProviderBlock_cases d c h c' h' :
  cloudProviderBlock d c h = (Ok c', h') ->
  (c' = c /\ h' = h /\
   (GetOk d "cloud.0.provider" = None \/ GetOk d "cloud.0.provider" = Some (VString ""))) \/
  (exists p lk la lc,
     GetOk d "cloud.0.provider" = Some (VString p) /\ p <> "" /\
     c' = set_ControllerManagerExtraArgs (Some lc)
            (set_APIServerExtraArgs (Some la) (set_KubeletExtraArgs (Some lk) c)) /\
     (forall l, kubeletArgs c = Some l -> lk = l) /\
     (forall l, apiServerArgs c = Some l -> la = l) /\
     (forall l, controllerManagerArgs c = Some l -> lc = l) /\
     h' !!! lk = withCloudProvider (contents h (kubeletArgs c)) /\
     h' !!! la = withCloudProvider (contents h (apiServerArgs c)) /\
     h' !!! lc = withCloudProvider (contents h (controllerManagerArgs c)) /\
     (forall x, x <> lk -> x <> la -> x <> lc -> h' !!! x = h !!! x) /\
     (forall x, h' !!! x = h !!! x \/ h' !!! x = withCloudProvider (h !!! x))).
Proof.
  intros E. destruct (cloudProviderBlock_ok d c h c' h' E) as [?|(p & Hp & Hne)]; [auto|].
  right.
  destruct (cloudProviderBlock_active d c h p Hp Hne)
    as (lk & la & lc & h3 & E' & Hrest).
  rewrite E in E'. inversion E'. subst. exists p, lk, la, lc. auto.
Qed.

(** No block before the token touches the bootstrap tokens. *)
Lemma fromSourceTree_tokens d h c h' :
  fromSourceTree common d h = (Ok c, h') ->
  BootstrapTokens c = BootstrapTokens (baseConfig common).
Proof.
  intros E. apply fromSourceTree_inv in E.
  destruct E as (c1 & h1 & c2 & h2 & c3 & h3 & c4 & h4 & c5 & h5 & c6 & h6 & c7 & h7 &
                 E1 & E2 & E3 & E4 & E5 & E6 & E7 & E8).
  apply apiBlock_ok in E1. destruct E1 as (_ & ? & ? & ? & ? & -> & _).
  apply networkBlock_ok in E2. destruct E2 as ((? & ? & ? & -> & _) & _).
  apply imagesBlock_ok in E3. destruct E3 as (_ & ->).
  apply etcdBlock_ok in E8. destruct E8 as (_ & ->).
  apply versionBlock_ok in E7. destruct E7 as (_ & ? & -> & _).
  apply cniBlock_ok in E6. destruct E6 as (-> & _).
  apply runtimeBlock_ok in E4.
  apply cloudProviderBlock_cases in E5.
  destruct E5 as [(-> & _)|(? & ? & ? & ? & _ & _ & -> & _)];
    (destruct E4 as [(_ & -> & _)|(_ & cm & hm & Ee & Ex)];
     [reflexivity|]);
    apply runtimeExtraArgs_ok in Ex; destruct Ex as (_ & ->);
    apply runtimeEngine_ok in Ee;
    (destruct Ee as [(_ & -> & _)|(? & ? & ? & _ & _ & _ & -> & _)]); reflexivity.
Qed.

End Chain.

(** ** The bootstrap token *)

(** C4. With an empty token the bootstrap tokens stay those of the base
    record. With a non-empty token: when the constructor reports an error no
    record is returned, and that error is the result once the tree has been
    read; when it gives a token, the result holds that token alone, its
    expiry cleared. *)
Theorem bootstrap_token_single_never_expires common d token h :
  (token = "" ->
   forall cfg h', dataSourceToInitConfig common d token h = (Ok cfg, h') ->
     BootstrapTokens cfg = BootstrapTokens (baseConfig common)) /\
  (token <> "" ->
   (forall e, NewBootstrapToken common token = inr e ->
      (forall cfg h', dataSourceToInitConfig common d token h <> (Ok cfg, h')) /\
      (forall c h1, fromSourceTree common d h = (Ok c, h1) ->
         dataSourceToInitConfig common d token h = (Err e, h1))) /\
   (forall t, NewBootstrapToken common token = inl t ->
      (forall cfg h', dataSourceToInitConfig common d token h = (Ok cfg, h') ->
         BootstrapTokens cfg = [set_Expires None t] /\
         Forall (fun b => Expires b = None) (BootstrapTokens cfg)) /\
      (forall c h1, fromSourceTree common d h = (Ok c, h1) ->
         dataSourceToInitConfig common d token h =
         (Ok (set_BootstrapTokens [set_Expires None t] c), h1)))).
Proof.
  split; [|intros Hne; split].
  - intros -> cfg h' E. apply dataSourceToInitConfig_inv in E.
    destruct E as (c0 & h0 & E0 & Et). rewrite tokenBlock_empty in Et.
    inversion Et. subst. eapply fromSourceTree_tokens, E0.
  - intros e He. split.
    + intros cfg h' E. apply dataSourceToInitConfig_inv in E.
      destruct E as (c0 & h0 & _ & Et). apply tokenBlock_ok in Et.
      destruct Et as (_ & [(? & _)|(t & _ & Ht & _)]); congruence.
    + intros c h1 E0. unfold dataSourceToInitConfig. rewrite (bind_ok _ _ _ _ _ E0).
      unfold tokenBlock. destruct token as [|a token]; [congruence|].
      cbn [String.length Nat.ltb Nat.leb]. rewrite bind_run, He. reflexivity.
  - intros t Ht. split.
    + intros cfg h' E. apply dataSourceToInitConfig_inv in E.
      destruct E as (c0 & h0 & _ & Et). apply tokenBlock_ok in Et.
      destruct Et as (_ & [(? & _)|(t' & _ & Ht' & ->)]); [congruence|].
      rewrite Ht in Ht'. inversion Ht'. subst t'. split; [reflexivity|].
      constructor; [reflexivity|constructor].
    + intros c h1 E0. unfold dataSourceToInitConfig. rewrite (bind_ok _ _ _ _ _ E0).
      unfold tokenBlock. destruct token as [|a token]; [congruence|].
      cbn [String.length Nat.ltb Nat.leb]. rewrite bind_run, Ht. reflexivity.
Qed.

Lemma bootstrap_token_single_never_expires_witness :
  (forall cfg h',
     dataSourceToInitConfig Sample.pkg ∅ "" Sample.heap0 = (Ok cfg, h') ->
     BootstrapTokens cfg = []) /\
  dataSourceToInitConfig Sample.pkg ∅ "no-dot" Sample.heap0
    = (Err (TokenError "no-dot"), Sample.heap0) /\
  dataSourceToInitConfig Sample.pkg ∅ "abcdef.0123456789abcdef" Sample.heap0
    = (Ok (set_BootstrapTokens
             [{| Token := Some {| ID := "abcdef"; Secret := "0123456789abcdef" |};
                 Description := ""; TTL := Some 86400%Z; Expires := None;
                 Usages := ["signing"; "authentication"];
                 Groups := ["system:bootstrappers:kubeadm:default-node-token"] |}]
             (baseConfig Sample.pkg)), Sample.heap0).
Proof.
  split; [|split].
  - exact (proj1 (bootstrap_token_single_never_expires Sample.pkg ∅ "" Sample.heap0) eq_refl).
  - refine (proj2 (proj1 (proj2 (bootstrap_token_single_never_expires
              Sample.pkg ∅ "no-dot" Sample.heap0) _) (TokenError "no-dot") eq_refl)
              (baseConfig Sample.pkg) Sample.heap0 _).
    + discriminate.
    + vm_compute. reflexivity.
  - refine (proj2 (proj2 (proj2 (bootstrap_token_single_never_expires
              Sample.pkg ∅ "abcdef.0123456789abcdef" Sample.heap0) _) _ eq_refl)
              (baseConfig Sample.pkg) Sample.heap0 _).
    + discriminate.
    + vm_compute. reflexivity.
Defined.

(** ** Reading a successful run *)

(** Split a successful run of [fromSourceTree] into its blocks and state what
    each block left. *)
Ltac chain_inv E :=
  apply fromSourceTree_inv in E;
  destruct E as (c1 & h1 & c2 & h2 & c3 & h3 & c4 & h4 & c5 & h5 & c6 & h6 & c7 & h7 &
                 E1 & E2 & E3 & E4 & E5 & E6 & E7 & E8).

Ltac frame_api E1 :=
  apply apiBlock_ok in E1;
  destruct E1 as (-> & cpe & addr & port' & sans & -> & Hcpe & Hlocal).
Ltac frame_network E2 :=
  apply networkBlock_ok in E2;
  destruct E2 as ((ps & ss & dd & -> & Hps & Hss & Hdd) & Hh2 & Hup).
Ltac frame_images E3 :=
  apply imagesBlock_ok in E3; destruct E3 as (-> & ->).
Ltac frame_runtime E4 :=
  apply runtimeBlock_ok in E4;
  destruct E4 as [(Hrt & -> & ->)|(Hrt & cm & hm & Ee & Ex)];
  [|apply runtimeExtraArgs_ok in Ex; destruct Ex as (-> & ->);
    apply runtimeEngine_ok in Ee;
    destruct Ee as [(Heng & -> & ->)|(name & socket & g & Heng & Hsock & Hg & -> & ->)]].
Ltac frame_cloud E5 :=
  apply cloudProviderBlock_cases in E5;
  destruct E5 as [(-> & -> & Hcloud)
                 |(p & lk & la & lc & Hcloud & Hp & -> & Hlk & Hla & Hlc &
                   Hhk & Hha & Hhc & Hother & Hany)].
Ltac frame_cni E6 :=
  apply cniBlock_ok in E6; destruct E6 as (-> & Hcni & Hcni0).
Ltac frame_version E7 :=
  apply versionBlock_ok in E7; destruct E7 as (-> & ver & -> & Hver).
Ltac frame_etcd E8 :=
  apply etcdBlock_ok in E8; destruct E8 as (-> & ->).
Ltac frame_token Et :=
  apply tokenBlock_ok in Et;
  destruct Et as (-> & [(Htok & ->)|(t & Htok & Hnew & ->)]).

(** ** The internal endpoint *)

Section Internal.

Variable common : Common.
Implicit Types (d : gmap string value) (c : InitConfiguration) (h : heap).

Lemma apiInternal_run internal host port c h :
  net.SplitHostPort internal = inl (host, port) -> port <> "" ->
  apiInternal (VString internal) c h =
  match strconv.Atoi port with
  | inl i => (Ok (set_CertSANs (certSANs c ++ [host])
                    (set_BindPort (int32 i) (set_AdvertiseAddress host c))), h)
  | inr e => (Err e, h)
  end.
Proof.
  intros Hs Hp. unfold apiInternal. cbn [assertString].
  rewrite bind_run. cbn [mret M_ret]. rewrite Hs. cbn [try]. rewrite bind_run.
  cbn [mret M_ret]. destruct port as [|a port]; [congruence|]. cbn [Bytes.isEmpty negb].
  rewrite !bind_run.
  destruct (strconv.Atoi (String a port)); reflexivity.
Qed.

Lemma apiBlock_internal_ok d c h c' h' internal host port :
  GetOk d "api.0.internal" = Some (VString internal) ->
  net.SplitHostPort internal = inl (host, port) -> port <> "" ->
  GetOk d "api.0" <> None ->
  apiBlock common d c h = (Ok c', h') ->
  exists i, strconv.Atoi port = inl i /\
            BindPort (LocalAPIEndpoint c') = int32 i /\
            AdvertiseAddress (LocalAPIEndpoint c') = host.
Proof.
  intros Hi Hs Hp Ha E. unfold apiBlock, whenOk in E.
  destruct (GetOk d "api.0"); [|congruence]. rewrite Hi in E.
  apply bind_ok_inv in E. destruct E as (ca & ha & _ & E).
  apply bind_ok_inv in E. destruct E as (cb & hb & Eb & E).
  rewrite (apiInternal_run _ _ _ _ _ Hs Hp) in Eb.
  destruct (strconv.Atoi port) as [i|e]; [|discriminate].
  exists i. split; [reflexivity|]. inversion Eb. subst cb hb. clear Eb.
  destruct (GetOk d "api.0.alt_names") as [alt|].
  - apply bind_ok_inv in E. destruct E as (l & hl & _ & E). inversion E. auto.
  - inversion E. auto.
Qed.

Lemma apiBlock_internal_err d c h internal host port e :
  GetOk d "api.0.internal" = Some (VString internal) ->
  net.SplitHostPort internal = inl (host, port) -> port <> "" ->
  GetOk d "api.0" <> None ->
  strconv.Atoi port = inr e ->
  (GetOk d "api.0.external" = None \/
   exists external, GetOk d "api.0.external" = Some (VString external)) ->
  apiBlock common d c h = (Err e, h).
Proof.
  intros Hi Hs Hp Ha He Hx. unfold apiBlock, whenOk.
  destruct (GetOk d "api.0"); [|congruence]. rewrite Hi.
  destruct Hx as [->|(x & ->)]; cbn [assertString];
    unfold mbind, M_bind, mret, M_ret; cbn beta iota;
    rewrite (apiInternal_run _ _ _ _ _ Hs Hp), He; reflexivity.
Qed.

(** Nothing after the first block touches the local endpoint. *)
Lemma fromSourceTree_local_endpoint d h c h' :
  fromSourceTree common d h = (Ok c, h') ->
  exists c1, apiBlock common d (baseConfig common) h = (Ok c1, h) /\
             LocalAPIEndpoint c = LocalAPIEndpoint c1.
Proof.
  intros E. chain_inv E. exists c1.
  pose proof (apiBlock_ok _ _ _ _ _ _ E1) as (-> & _). split; [exact E1|]. clear E1.
  frame_network E2. frame_images E3. frame_cni E6. frame_version E7. frame_etcd E8.
  frame_cloud E5; frame_runtime E4; reflexivity.
Qed.

End Internal.

(** Against C7 as stated: the port [-1] is no non-negative integer, yet the
    derivation returns a record, with the bind port -1. *)
Lemma negative_port_is_accepted :
  net.SplitHostPort "10.0.0.5:-1" = inl ("10.0.0.5", "-1") /\
  allDigits "-1" = false /\
  dataSourceToInitConfig Sample.pkg negativePortTree "" Sample.heap0 =
  (Ok (set_CertSANs ["10.0.0.5"]
         (set_BindPort (-1) (set_AdvertiseAddress "10.0.0.5" (baseConfig Sample.pkg)))),
   Sample.heap0).
Proof. split; [reflexivity|]. split; [reflexivity|]. vm_compute. reflexivity. Qed.

(** C7, as the code has it. For an internal endpoint with a non-empty port:
    a returned record means the port is a decimal integer with an optional
    sign, in the range of [int] (negative ones such as [-1] included), and
    the bind port is its value converted to [int32]; any other port makes
    the derivation return the parse error and no record. *)
Theorem internal_port_is_a_signed_decimal common d token h internal host port :
  GetOk d "api.0" <> None ->
  GetOk d "api.0.internal" = Some (VString internal) ->
  net.SplitHostPort internal = inl (host, port) ->
  port <> "" ->
  (forall cfg h',
     dataSourceToInitConfig common d token h = (Ok cfg, h') ->
     isSignedDecimal port = true /\
     (- 2 ^ 63 <= signedValue port < 2 ^ 63)%Z /\
     BindPort (LocalAPIEndpoint cfg) = int32 (signedValue port)) /\
  (forall c,
     isSignedDecimal port = true -> (- 2 ^ 63 <= signedValue port < 2 ^ 63)%Z ->
     apiInternal (VString internal) c h =
     (Ok (set_CertSANs (certSANs c ++ [host])
            (set_BindPort (int32 (signedValue port)) (set_AdvertiseAddress host c))), h)) /\
  (forall e,
     strconv.Atoi port = inr e ->
     (forall cfg h', dataSourceToInitConfig common d token h <> (Ok cfg, h')) /\
     (GetOk d "api.0.external" = None \/
      (exists external, GetOk d "api.0.external" = Some (VString external)) ->
      dataSourceToInitConfig common d token h = (Err e, h))) /\
  (isSignedDecimal port = false \/ ~ (- 2 ^ 63 <= signedValue port < 2 ^ 63)%Z ->
   exists e, strconv.Atoi port = inr e).
Proof.
  intros Ha Hi Hs Hp.
  assert (Run : forall cfg h',
     dataSourceToInitConfig common d token h = (Ok cfg, h') ->
     exists i, strconv.Atoi port = inl i /\ BindPort (LocalAPIEndpoint cfg) = int32 i).
  { intros cfg h' E. apply dataSourceToInitConfig_inv in E.
    destruct E as (c0 & h0 & E0 & Et).
    apply fromSourceTree_local_endpoint in E0. destruct E0 as (c1 & E1 & Hl).
    destruct (apiBlock_internal_ok common _ _ _ _ _ _ _ _ Hi Hs Hp Ha E1) as (i & Hat & Hb & _).
    exists i. split; [exact Hat|].
    frame_token Et; cbn [LocalAPIEndpoint set_BootstrapTokens]; congruence. }
  split; [|split; [|split]].
  - intros cfg h' E. destruct (Run cfg h' E) as (i & Hat & Hb).
    apply Atoi_inl_iff in Hat. destruct Hat as (D & -> & R). auto.
  - intros c D R. rewrite (apiInternal_run _ _ _ _ _ Hs Hp).
    rewrite (proj2 (Atoi_inl_iff port (signedValue port))) by auto. reflexivity.
  - intros e He. split.
    + intros cfg h' E. destruct (Run cfg h' E) as (i & Hat & _). congruence.
    + intros Hx. unfold dataSourceToInitConfig, fromSourceTree.
      rewrite bind_run, bind_run.
      rewrite (apiBlock_internal_err common d _ h _ _ _ e Hi Hs Hp Ha He Hx). reflexivity.
  - intros Hbad. destruct (strconv.Atoi port) as [i|e] eqn:Hat; [|eauto].
    apply Atoi_inl_iff in Hat. destruct Hat as (D & -> & R).
    destruct Hbad; [congruence|tauto].
Qed.

Lemma internal_port_is_a_signed_decimal_witness :
  dataSourceToInitConfig Sample.pkg
    {[ "api.0" := VOther; "api.0.internal" := VString "10.0.0.5:64x3" ]} "" Sample.heap0
  = (Err (NumError "Atoi" "64x3" "invalid syntax"), Sample.heap0) /\
  let cfg := set_CertSANs ["10.0.0.5"]
               (set_BindPort (-1) (set_AdvertiseAddress "10.0.0.5" (baseConfig Sample.pkg))) in
  dataSourceToInitConfig Sample.pkg negativePortTree "" Sample.heap0 = (Ok cfg, Sample.heap0) /\
  isSignedDecimal "-1" = true /\
  BindPort (LocalAPIEndpoint cfg) = int32 (signedValue "-1").
Proof.
  split.
  - assert (Ha : GetOk ({[ "api.0" := VOther;
                           "api.0.internal" := VString "10.0.0.5:64x3" ]}
                          : gmap string value) "api.0" <> None) by discriminate.
    assert (Hp : "64x3" <> "") by discriminate.
    pose proof (internal_port_is_a_signed_decimal Sample.pkg _ "" Sample.heap0
                  "10.0.0.5:64x3" "10.0.0.5" "64x3" Ha eq_refl eq_refl Hp)
      as (_ & _ & H & _).
    exact (proj2 (H _ eq_refl) (or_introl eq_refl)).
  - intros cfg.
    assert (E : dataSourceToInitConfig Sample.pkg negativePortTree "" Sample.heap0
                = (Ok cfg, Sample.heap0)) by (vm_compute; reflexivity).
    assert (Ha : GetOk negativePortTree "api.0" <> None) by discriminate.
    assert (Hp : "-1" <> "") by discriminate.
    pose proof (internal_port_is_a_signed_decimal Sample.pkg negativePortTree ""
                  Sample.heap0 "10.0.0.5:-1" "10.0.0.5" "-1" Ha eq_refl eq_refl Hp)
      as (H & _).
    split; [exact E|]. destruct (H cfg Sample.heap0 E) as (D & _ & B). split; assumption.
Defined.

(** ** The datastore *)





(** ** The extra arguments of the components *)

Lemma argsAfter_absent d path old : GetOk d path = None -> argsAfter d path old = old.
Proof.
  intros Hv. unfold argsAfter. rewrite Hv.
  destruct (GetOk d "runtime.0.extra_args.0"); reflexivity.
Qed.

Lemma runtimeExtraArgs_handedOut d c h :
  fromResourceData d ->
  GetOk d "runtime.0.extra_args.0" <> None ->
  (exists path, In path extraArgsPaths /\ GetOk d path <> None) ->
  runtimeExtraArgs d c h = (Panic, h).
Proof.
  intros Hd H0 (path & Hin & Hp). unfold runtimeExtraArgs, whenOk.
  destruct (GetOk d "runtime.0.extra_args.0") as [v0|]; [|congruence].
  destruct (GetOk d "runtime.0.extra_args.0.api_server") as [va|] eqn:Ea.
  { rewrite bind_run, bind_run, (assertMap_handedOut va h (fromResourceData_lookup _ _ _ Hd Ea)).
    reflexivity. }
  rewrite bind_run. cbn [mret M_ret].
  destruct (GetOk d "runtime.0.extra_args.0.controller_manager") as [vc|] eqn:Ec.
  { rewrite bind_run, bind_run, (assertMap_handedOut vc h (fromResourceData_lookup _ _ _ Hd Ec)).
    reflexivity. }
  rewrite bind_run. cbn [mret M_ret].
  destruct (GetOk d "runtime.0.extra_args.0.scheduler") as [vs|] eqn:Es.
  { rewrite bind_run, bind_run, (assertMap_handedOut vs h (fromResourceData_lookup _ _ _ Hd Es)).
    reflexivity. }
  rewrite bind_run. cbn [mret M_ret].
  destruct (GetOk d "runtime.0.extra_args.0.kubelet") as [vk|] eqn:Ek.
  { rewrite bind_run, (assertMap_handedOut vk h (fromResourceData_lookup _ _ _ Hd Ek)).
    reflexivity. }
  exfalso. cbn [extraArgsPaths In] in Hin.
  destruct Hin as [<- | [<- | [<- | [<- | []]]]]; congruence.
Qed.

Lemma runtimeExtraArgs_unset d c h :
  (forall path, In path extraArgsPaths -> GetOk d path = None) ->
  runtimeExtraArgs d c h = (Ok c, h).
Proof.
  intros Hn. unfold runtimeExtraArgs, whenOk.
  destruct (GetOk d "runtime.0.extra_args.0"); [|reflexivity].
  rewrite !Hn by (cbn; tauto). reflexivity.
Qed.

(** C9. On a tree as the library hands it out, with the extra-args block
    present: as soon as one of the four sub-paths is set, lines 135-148 panic
    at the type assertion and write no map, and the derivation returns no
    record; with none of them set they leave the record and the maps as they
    were. The replacement of a component's extra-args never takes place. *)
Theorem component_extra_args_are_never_replaced d c h :
  fromResourceData d ->
  GetOk d "runtime.0.extra_args.0" <> None ->
  ((exists path, In path extraArgsPaths /\ GetOk d path <> None) ->
     runtimeExtraArgs d c h = (Panic, h) /\
     (forall common token h0 cfg hf,
        GetOk d "runtime.0" <> None ->
        dataSourceToInitConfig common d token h0 <> (Ok cfg, hf))) /\
  ((forall path, In path extraArgsPaths -> GetOk d path = None) ->
     runtimeExtraArgs d c h = (Ok c, h)).
Proof.
  intros Hd H0. split; [|apply runtimeExtraArgs_unset].
  intros Hset. split; [exact (runtimeExtraArgs_handedOut d c h Hd H0 Hset)|].
  intros common token h0 cfg hf Hrt0 E.
  apply dataSourceToInitConfig_inv in E. destruct E as (c0 & hz & E & _).
  chain_inv E. apply runtimeBlock_ok in E4.
  destruct E4 as [(? & _)|(_ & cm & hm & _ & Ex)]; [congruence|].
  rewrite (runtimeExtraArgs_handedOut d cm hm Hd H0 Hset) in Ex. discriminate.
Qed.

Lemma component_extra_args_are_never_replaced_witness :
  fromResourceData extraArgsTree /\
  runtimeExtraArgs extraArgsTree (baseConfig Sample.pkg) Sample.heap0
    = (Panic, Sample.heap0) /\
  dataSourceToInitConfig Sample.pkg extraArgsTree "" Sample.heap0 = (Panic, Sample.heap0).
Proof.
  assert (Hd : fromResourceData extraArgsTree) by handed_out.
  assert (H0 : GetOk extraArgsTree "runtime.0.extra_args.0" <> None) by discriminate.
  assert (Hset : exists path, In path extraArgsPaths /\ GetOk extraArgsTree path <> None).
  { exists "runtime.0.extra_args.0.kubelet". split; [cbn; tauto | discriminate]. }
  split; [exact Hd|]. split.
  - exact (proj1 (proj1 (component_extra_args_are_never_replaced extraArgsTree
                           (baseConfig Sample.pkg) Sample.heap0 Hd H0) Hset)).
  - vm_compute. reflexivity.
Defined.

(** ** The runtime engine *)

Lemma contents_store (g : loc) (k0 v : string) (h : heap) (m : mapref) (k : string) :
  contents (<[g := <[k0 := v]> (h !!! g)]> h) m !! k =
  if decide (m = Some g /\ k = k0) then Some v else contents h m !! k.
Proof.
  destruct m as [l|]; cbn [contents].
  - rewrite store_lookup. repeat case_decide; try reflexivity.
    + exfalso. destruct H as [-> ->]. tauto.
    + exfalso. destruct H0 as [E ->]. inversion E. tauto.
  - rewrite decide_False by (intros [? _]; discriminate). reflexivity.
Qed.

Lemma withCloudProvider_lookup m k :
  k <> "cloud-provider" -> withCloudProvider m !! k = m !! k.
Proof. intros Hk. unfold withCloudProvider. apply lookup_insert_ne. congruence. Qed.

Lemma withCloudProvider_set m : withCloudProvider m !! "cloud-provider" = Some "external".
Proof. apply lookup_insert_eq. Qed.

Lemma runtimeEngine_known common d c h engine sock g :
  GetOk d "runtime.0.engine" = Some (VString engine) ->
  DefCriSocket common !! engine = Some sock ->
  kubeletArgs c = Some g ->
  runtimeEngine common d c h =
  (Ok (set_CRISocket sock c),
   <[g := <["container-runtime-endpoint" := "unix://" +:+ sock]> (h !!! g)]> h).
Proof.
  intros He Hs Hg. unfold runtimeEngine, whenOk. rewrite He. cbn [assertString].
  rewrite bind_run. cbn [mret M_ret]. rewrite Hs, bind_run, Hg. reflexivity.
Qed.

(** C10. On a tree as the library hands it out, with a known runtime engine
    and kubelet extra-args: the derivation returns no record. Lines 124-149
    write [container-runtime-endpoint] into the map the kubelet extra-args
    point at and then panic at the type assertion of line 146; when the
    blocks before go through, that is how the derivation ends, and the entry
    stays in the package's default map. *)
Theorem kubelet_args_panic_after_the_runtime_endpoint common d token h engine sock :
  fromResourceData d ->
  GetOk d "runtime.0" <> None ->
  GetOk d "runtime.0.engine" = Some (VString engine) ->
  DefCriSocket common !! engine = Some sock ->
  GetOk d "runtime.0.extra_args.0" <> None ->
  GetOk d "runtime.0.extra_args.0.kubelet" <> None ->
  (forall cfg h', dataSourceToInitConfig common d token h <> (Ok cfg, h')) /\
  (forall c h0 g, kubeletArgs c = Some g ->
     runtimeBlock common d c h0 =
     (Panic, <[g := <["container-runtime-endpoint" := "unix://" +:+ sock]> (h0 !!! g)]> h0)) /\
  (forall g ca ha cb hb cc hc,
     DefKubeletSettings common = Some g ->
     apiBlock common d (baseConfig common) h = (Ok ca, ha) ->
     networkBlock common d ca ha = (Ok cb, hb) ->
     imagesBlock d cb hb = (Ok cc, hc) ->
     let h1 := <[g := <["container-runtime-endpoint" := "unix://" +:+ sock]> (hc !!! g)]> hc in
     dataSourceToInitConfig common d token h = (Panic, h1) /\
     (h1 !!! g) !! "container-runtime-endpoint" = Some ("unix://" +:+ sock)).
Proof.
  intros Hd Hrt0 Heng0 Hsock0 Hex Hk.
  assert (Hset : exists path, In path extraArgsPaths /\ GetOk d path <> None).
  { exists "runtime.0.extra_args.0.kubelet". split; [cbn; tauto | exact Hk]. }
  assert (Hblock : forall c h0 g, kubeletArgs c = Some g ->
            runtimeBlock common d c h0 =
            (Panic, <[g := <["container-runtime-endpoint" := "unix://" +:+ sock]> (h0 !!! g)]> h0)).
  { intros c h0 g Hg. unfold runtimeBlock, whenOk.
    destruct (GetOk d "runtime.0"); [|congruence].
    rewrite bind_run, (runtimeEngine_known common d c h0 engine sock g Heng0 Hsock0 Hg).
    apply runtimeExtraArgs_handedOut; assumption. }
  split; [|split; [exact Hblock|]].
  - intros cfg h' E. apply dataSourceToInitConfig_inv in E.
    destruct E as (c0 & hz & E & _). chain_inv E. apply runtimeBlock_ok in E4.
    destruct E4 as [(? & _)|(_ & cm & hm & _ & Ex)]; [congruence|].
    rewrite (runtimeExtraArgs_handedOut d cm hm Hd Hex Hset) in Ex. discriminate.
  - intros g ca ha cb hb cc hc Hg Ea Eb Ec h1. split.
    + assert (Hkc : kubeletArgs cc = Some g).
      { pose proof Ea as Ea'. pose proof Eb as Eb'. pose proof Ec as Ec'.
        apply apiBlock_ok in Ea'. destruct Ea' as (_ & ? & ? & ? & ? & -> & _).
        apply networkBlock_ok in Eb'. destruct Eb' as ((? & ? & ? & -> & _) & _).
        apply imagesBlock_ok in Ec'. destruct Ec' as (_ & ->). exact Hg. }
      unfold dataSourceToInitConfig, fromSourceTree.
      rewrite bind_run, bind_run, Ea, bind_run, Eb, bind_run, Ec, bind_run.
      rewrite (Hblock cc hc g Hkc). reflexivity.
    + subst h1. rewrite store_lookup, decide_True by auto. reflexivity.
Qed.

Lemma kubelet_args_panic_after_the_runtime_endpoint_witness :
  let h1 : gmap loc (gmap string string) :=
    {[ 1%positive := {[ "network-plugin" := "cni";
                        "container-runtime-endpoint" := "unix:///var/run/dockershim.sock" ]} ]} in
  fromResourceData engineAndArgsTree /\
  dataSourceToInitConfig Sample.pkg engineAndArgsTree "" Sample.heap0 = (Panic, h1).
Proof.
  intros h1.
  assert (Hd : fromResourceData engineAndArgsTree) by handed_out.
  split; [exact Hd|].
  assert (H1 : GetOk engineAndArgsTree "runtime.0" <> None) by discriminate.
  assert (H2 : GetOk engineAndArgsTree "runtime.0.extra_args.0" <> None) by discriminate.
  assert (H3 : GetOk engineAndArgsTree "runtime.0.extra_args.0.kubelet" <> None)
    by discriminate.
  pose proof (proj2 (proj2 (kubelet_args_panic_after_the_runtime_endpoint Sample.pkg
                engineAndArgsTree "" Sample.heap0 "docker" "/var/run/dockershim.sock"
                Hd H1 eq_refl eq_refl H2 H3))
                1%positive (baseConfig Sample.pkg) Sample.heap0
                (baseConfig Sample.pkg) Sample.heap0 (baseConfig Sample.pkg) Sample.heap0
                eq_refl eq_refl eq_refl eq_refl) as (E & _).
  rewrite E. vm_compute. reflexivity.
Defined.

(** C5. A runtime engine of the table: lines 125-133 store its socket as the
    runtime socket and set the kubelet extra-arg [container-runtime-endpoint]
    to [unix://] followed by the socket; the socket stays in the returned
    record, and so does the extra-arg unless the tree brings kubelet
    extra-args of its own. (The extra-arg goes into the map the kubelet
    extra-args point at; were they nil, the assignment of line 128 would
    panic.) An engine that is not in the table: the step returns the error
    naming it, and the derivation returns no record. *)
Theorem runtime_engine_resolves_the_socket common d c h engine :
  GetOk d "runtime.0.engine" = Some (VString engine) ->
  (forall sock, DefCriSocket common !! engine = Some sock ->
     (forall g0, kubeletArgs c = Some g0 ->
        let h1 := <[g0 := <["container-runtime-endpoint" := "unix://" +:+ sock]>
                            (h !!! g0)]> h in
        runtimeEngine common d c h = (Ok (set_CRISocket sock c), h1) /\
        contents h1 (kubeletArgs (set_CRISocket sock c)) !! "container-runtime-endpoint"
          = Some ("unix://" +:+ sock)) /\
     (kubeletArgs c = None -> runtimeEngine common d c h = (Panic, h)) /\
     (forall token h0 cfg h',
        GetOk d "runtime.0" <> None ->
        dataSourceToInitConfig common d token h0 = (Ok cfg, h') ->
        CRISocket (NodeRegistration cfg) = sock /\
        (GetOk d "runtime.0.extra_args.0" = None \/
         GetOk d "runtime.0.extra_args.0.kubelet" = None ->
         contents h' (kubeletArgs cfg) !! "container-runtime-endpoint"
           = Some ("unix://" +:+ sock)))) /\
  (DefCriSocket common !! engine = None ->
     runtimeEngine common d c h = (Err (unknownRuntimeEngine engine), h) /\
     unknownRuntimeEngine engine = ErrorString ("unknown runtime engine " +:+ engine) /\
     (forall token h0 cfg h',
        GetOk d "runtime.0" <> None ->
        dataSourceToInitConfig common d token h0 <> (Ok cfg, h')) /\
     (forall token h0 ca ha cb hb cc hc,
        GetOk d "runtime.0" <> None ->
        apiBlock common d (baseConfig common) h0 = (Ok ca, ha) ->
        networkBlock common d ca ha = (Ok cb, hb) ->
        imagesBlock d cb hb = (Ok cc, hc) ->
        dataSourceToInitConfig common d token h0 = (Err (unknownRuntimeEngine engine), hc))).
Proof.
  intros Heng0. split.
  - intros sock Hsock0. split.
    + intros g0 Hg0 h1. assert (E : runtimeEngine common d c h = (Ok (set_CRISocket sock c), h1)).
      { unfold runtimeEngine, whenOk. rewrite Heng0. cbn [assertString].
        rewrite bind_run. cbn [mret M_ret]. rewrite Hsock0, bind_run.
        rewrite Hg0. reflexivity. }
      split; [exact E|]. subst h1.
      change (kubeletArgs (set_CRISocket sock c)) with (kubeletArgs c).
      rewrite contents_store, decide_True by auto. reflexivity.
    + split.
      { intros Hnil. unfold runtimeEngine, whenOk. rewrite Heng0. cbn [assertString].
        rewrite bind_run. cbn [mret M_ret]. rewrite Hsock0, bind_run, Hnil. reflexivity. }
      intros token h0 cfg h' Hrt0 E.
      apply dataSourceToInitConfig_inv in E. destruct E as (c0 & hz & E & Et).
      chain_inv E. frame_api E1. frame_network E2. frame_images E3. frame_cni E6.
      frame_version E7. frame_etcd E8.
      frame_token Et; frame_cloud E5; frame_runtime E4; try congruence.
      all: rewrite Heng0 in Heng; inversion Heng; subst name; clear Heng.
      all: rewrite Hsock0 in Hsock; inversion Hsock; subst socket; clear Hsock.
      all: norm_fields; split; [reflexivity|]; intros Hno.
      all: assert (Ha : argsAfter d "runtime.0.extra_args.0.kubelet"
                          (DefKubeletSettings common) = DefKubeletSettings common)
        by (unfold argsAfter; destruct Hno as [->| ->];
            [reflexivity|destruct (GetOk d "runtime.0.extra_args.0"); reflexivity]).
      all: rewrite Ha in *; rewrite Hg in *; cbn [contents] in *.
      1,3: rewrite Hcni by (right; split; discriminate);
        rewrite store_lookup, decide_True by auto; reflexivity.
      all: rewrite <- (Hlk g eq_refl) in *;
        rewrite Hcni by (right; split; discriminate);
        rewrite Hhk, withCloudProvider_lookup by discriminate;
        rewrite store_lookup, decide_True by auto; reflexivity.
  - intros Hnone.
    assert (E : forall c0 hx, runtimeEngine common d c0 hx = (Err (unknownRuntimeEngine engine), hx)).
    { intros c0 hx. unfold runtimeEngine, whenOk. rewrite Heng0. cbn [assertString].
      rewrite bind_run. cbn [mret M_ret]. rewrite Hnone. reflexivity. }
    split; [apply E|]. split; [reflexivity|]. split.
    + intros token h0 cfg h' Hrt0 Ed.
      apply dataSourceToInitConfig_inv in Ed. destruct Ed as (c0 & hz & Ed & _).
      chain_inv Ed. apply runtimeBlock_ok in E4.
      destruct E4 as [(? & _)|(_ & cm & hm & Ee & _)]; [congruence|].
      rewrite E in Ee. discriminate.
    + intros token h0 ca ha cb hb cc hc Hrt0 Ea Eb Ec.
      unfold dataSourceToInitConfig, fromSourceTree.
      rewrite bind_run, bind_run, Ea, bind_run, Eb, bind_run, Ec, bind_run.
      unfold runtimeBlock, whenOk. destruct (GetOk d "runtime.0"); [|congruence].
      rewrite bind_run, E. reflexivity.
Qed.

Lemma runtime_engine_resolves_the_socket_witness :
  runtimeEngine Sample.pkg {[ "runtime.0.engine" := VString "docker" ]}
    (baseConfig Sample.pkg) Sample.heap0
  = (Ok (set_CRISocket "/var/run/dockershim.sock" (baseConfig Sample.pkg)),
     {[ 1%positive := {[ "network-plugin" := "cni";
                         "container-runtime-endpoint" :=
                           "unix:///var/run/dockershim.sock" ]} ]}) /\
  dataSourceToInitConfig Sample.pkg
    {[ "runtime.0" := VOther; "runtime.0.engine" := VString "podman-typo" ]} ""
    Sample.heap0
  = (Err (ErrorString "unknown runtime engine podman-typo"), Sample.heap0).
Proof.
  split.
  - pose proof (proj1 (proj1 (runtime_engine_resolves_the_socket Sample.pkg
                  {[ "runtime.0.engine" := VString "docker" ]} (baseConfig Sample.pkg)
                  Sample.heap0 "docker" eq_refl) "/var/run/dockershim.sock" eq_refl)
                  1%positive eq_refl) as (E & _).
    rewrite E. vm_compute. reflexivity.
  - refine (proj2 (proj2 (proj2 (proj2 (runtime_engine_resolves_the_socket Sample.pkg
              {[ "runtime.0" := VOther; "runtime.0.engine" := VString "podman-typo" ]}
              (baseConfig Sample.pkg) Sample.heap0 "podman-typo" eq_refl) eq_refl)))
              "" Sample.heap0 (baseConfig Sample.pkg) Sample.heap0
              (baseConfig Sample.pkg) Sample.heap0 (baseConfig Sample.pkg) Sample.heap0
              _ eq_refl eq_refl _).
    + discriminate.
    + vm_compute. reflexivity.
Defined.

(** ** The cloud provider *)

(** C3. With a non-empty cloud-provider name, lines 154-169 leave the three
    extra-args of kubelet, API server and controller manager pointing at maps
    (the ones they pointed at, or fresh ones where they were nil) whose
    contents are the former contents with [cloud-provider] set to [external]:
    every other entry is kept. No other map changes, and the entry is still
    in the three maps of the returned record. *)
Theorem cloud_provider_fans_out common d c h provider :
  GetOk d "cloud.0.provider" = Some (VString provider) ->
  provider <> "" ->
  (exists c' h',
     cloudProviderBlock d c h = (Ok c', h') /\
     (forall args,
        args = kubeletArgs \/ args = apiServerArgs \/ args = controllerManagerArgs ->
        is_Some (args c') /\
        (forall l, args c = Some l -> args c' = Some l) /\
        contents h' (args c') = <["cloud-provider" := "external"]> (contents h (args c)) /\
        contents h' (args c') !! "cloud-provider" = Some "external" /\
        (forall k v, k <> "cloud-provider" ->
           contents h (args c) !! k = Some v -> contents h' (args c') !! k = Some v)) /\
     schedulerArgs c' = schedulerArgs c /\
     (forall x, kubeletArgs c' <> Some x -> apiServerArgs c' <> Some x ->
        controllerManagerArgs c' <> Some x -> h' !!! x = h !!! x)) /\
  (forall token h0 cfg h',
     dataSourceToInitConfig common d token h0 = (Ok cfg, h') ->
     contents h' (kubeletArgs cfg) !! "cloud-provider" = Some "external" /\
     contents h' (apiServerArgs cfg) !! "cloud-provider" = Some "external" /\
     contents h' (controllerManagerArgs cfg) !! "cloud-provider" = Some "external").
Proof.
  intros Hp0 Hne. split.
  - destruct (cloudProviderBlock_active d c h provider Hp0 Hne)
      as (lk & la & lc & h' & E & Hlk & Hla & Hlc & Hhk & Hha & Hhc & Hother & _).
    eexists _, h'. split; [exact E|]. split; [|split].
    + assert (G : forall (l : loc) (old : mapref),
                (forall l0, old = Some l0 -> l = l0) ->
                h' !!! l = withCloudProvider (contents h old) ->
                is_Some (Some l) /\
                (forall l0, old = Some l0 -> Some l = Some l0) /\
                contents h' (Some l) = <["cloud-provider" := "external"]> (contents h old) /\
                contents h' (Some l) !! "cloud-provider" = Some "external" /\
                (forall k v, k <> "cloud-provider" ->
                   contents h old !! k = Some v -> contents h' (Some l) !! k = Some v)).
      { intros l old Hl Hh. cbn [contents]. rewrite Hh. split; [eauto|].
        split; [intros l0 H0; rewrite (Hl l0 H0); reflexivity|].
        split; [reflexivity|]. split; [apply withCloudProvider_set|].
        intros k v Hk Hv. rewrite withCloudProvider_lookup by exact Hk. exact Hv. }
      intros args [-> | [-> | ->]].
      * exact (G lk _ Hlk Hhk).
      * exact (G la _ Hla Hha).
      * exact (G lc _ Hlc Hhc).
    + reflexivity.
    + intros x Hxk Hxa Hxc. apply Hother.
      * intros ->. apply Hxk. reflexivity.
      * intros ->. apply Hxa. reflexivity.
      * intros ->. apply Hxc. reflexivity.
  - intros token h0 cfg h' E.
    apply dataSourceToInitConfig_inv in E. destruct E as (c0 & hz & E & Et).
    chain_inv E. frame_api E1. frame_network E2. frame_images E3. frame_cni E6.
    frame_version E7. frame_etcd E8.
    frame_token Et; (frame_cloud E5; [destruct Hcloud; congruence|]); frame_runtime E4.
    all: norm_fields; cbn [contents].
    all: rewrite !Hcni by (right; split; discriminate).
    all: rewrite Hhk, Hha, Hhc.
    all: repeat split; apply withCloudProvider_set.
Qed.

Lemma cloud_provider_fans_out_witness :
  let cfg := set_ControllerManagerExtraArgs (Some 3%positive)
               (set_APIServerExtraArgs (Some 2%positive) (baseConfig Sample.pkg)) in
  let h' : gmap loc (gmap string string) :=
    {[ 1%positive := {[ "network-plugin" := "cni"; "cloud-provider" := "external" ]};
       2%positive := {[ "cloud-provider" := "external" ]};
       3%positive := {[ "cloud-provider" := "external" ]} ]} in
  dataSourceToInitConfig Sample.pkg cloudTree "" Sample.heap0 = (Ok cfg, h') /\
  contents h' (kubeletArgs cfg) !! "cloud-provider" = Some "external" /\
  contents h' (apiServerArgs cfg) !! "cloud-provider" = Some "external" /\
  contents h' (controllerManagerArgs cfg) !! "cloud-provider" = Some "external".
Proof.
  intros cfg h'.
  assert (E : dataSourceToInitConfig Sample.pkg cloudTree "" Sample.heap0 = (Ok cfg, h'))
    by (vm_compute; reflexivity).
  split; [exact E|].
  assert (Hne : "aws" <> "") by discriminate.
  exact (proj2 (cloud_provider_fans_out Sample.pkg cloudTree (baseConfig Sample.pkg)
                  Sample.heap0 "aws" eq_refl Hne) "" Sample.heap0 cfg h' E).
Defined.

(** ** Paths that are not set *)

Lemma etcdImageSupplied_absent d :
  absent d "images.0.etcd_repo" -> absent d "images.0.etcd_version" ->
  etcdImageSupplied d = false.
Proof.
  unfold absent, etcdImageSupplied, Get. intros -> ->.
  destruct (GetOk d "images.0"); reflexivity.
Qed.

Lemma externalAfter_absent d old : absent d "etcd.0.endpoints" -> externalAfter d old = old.
Proof.
  unfold absent, externalAfter. intros ->. destruct (GetOk d "etcd.0"); reflexivity.
Qed.

(** C6. In a returned record, a field whose source paths are all unset holds
    the value of the base record the function starts from (lines 35-45). The
    image repository is assigned whenever the images block is present, but
    what is assigned for an unset repository path is the empty string, which
    is the base value. *)
Theorem absent_paths_leave_base_values common d token h cfg h' :
  dataSourceToInitConfig common d token h = (Ok cfg, h') ->
  let base := baseConfig common in
  (absent d "api.0.external" ->
     ControlPlaneEndpoint (Cluster cfg) = ControlPlaneEndpoint (Cluster base)) /\
  (absent d "api.0.internal" -> LocalAPIEndpoint cfg = LocalAPIEndpoint base) /\
  (absent d "api.0.internal" -> absent d "api.0.alt_names" ->
     certSANs cfg = certSANs base) /\
  (absent d "network.0.pods" ->
     PodSubnet (cc_Networking (Cluster cfg)) = PodSubnet (cc_Networking (Cluster base))) /\
  (absent d "network.0.services" ->
     ServiceSubnet (cc_Networking (Cluster cfg))
     = ServiceSubnet (cc_Networking (Cluster base))) /\
  (absent d "network.0.dns.0.domain" ->
     DNSDomain (cc_Networking (Cluster cfg)) = DNSDomain (cc_Networking (Cluster base))) /\
  (absent d "images.0.kube_repo" ->
     ImageRepository (Cluster cfg) = ImageRepository (Cluster base)) /\
  (absent d "images.0.etcd_repo" -> absent d "images.0.etcd_version" ->
     Local (cc_Etcd (Cluster cfg)) = Local (cc_Etcd (Cluster base))) /\
  (absent d "etcd.0.endpoints" ->
     External (cc_Etcd (Cluster cfg)) = External (cc_Etcd (Cluster base))) /\
  (absent d "runtime.0.engine" ->
     CRISocket (NodeRegistration cfg) = CRISocket (NodeRegistration base)) /\
  (absent d "runtime.0.extra_args.0.api_server" -> absent d "cloud.0.provider" ->
     apiServerArgs cfg = apiServerArgs base) /\
  (absent d "runtime.0.extra_args.0.controller_manager" -> absent d "cloud.0.provider" ->
     controllerManagerArgs cfg = controllerManagerArgs base) /\
  (absent d "runtime.0.extra_args.0.scheduler" ->
     schedulerArgs cfg = schedulerArgs base) /\
  (absent d "network.0.dns.0.upstream" -> absent d "runtime.0.engine" ->
   absent d "runtime.0.extra_args.0.kubelet" -> absent d "cloud.0.provider" ->
   absent d "cni.0.bin_dir" -> absent d "cni.0.conf_dir" ->
     kubeletArgs cfg = kubeletArgs base /\ h' = h) /\
  (absent d "version" ->
     KubernetesVersion (Cluster cfg) = KubernetesVersion (Cluster base)) /\
  (token = "" -> BootstrapTokens cfg = BootstrapTokens base).
Proof.
  intros E base. subst base.
  apply dataSourceToInitConfig_inv in E. destruct E as (c0 & h0 & E & Et).
  chain_inv E. frame_api E1. frame_network E2. frame_images E3. frame_cni E6.
  frame_version E7. frame_etcd E8.
  frame_token Et; frame_cloud E5; frame_runtime E4.
  all: unfold absent; norm_fields.
  all: repeat match goal with |- _ /\ _ => split end; intros.
  all: rewrite ?argsAfter_absent by assumption.
  all: rewrite ?etcdImageSupplied_absent by assumption.
  all: rewrite ?externalAfter_absent by assumption.
  all: try reflexivity.
  all: try congruence.
  all: try (destruct Hcloud; congruence).
  all: try (apply Hcpe; assumption).
  all: try (apply Hps; assumption).
  all: try (apply Hss; assumption).
  all: try (apply Hdd; assumption).
  all: try (apply Hver; assumption).
  all: try (destruct (Hlocal ltac:(assumption)) as (-> & -> & Hs); reflexivity).
  all: try (destruct (Hlocal ltac:(assumption)) as (_ & _ & Hs); apply Hs; assumption).
  all: try (unfold Get;
            match goal with H : GetOk _ "images.0.kube_repo" = None |- _ => rewrite H end;
            match goal with |- context [GetOk ?t "images.0"] =>
              destruct (GetOk t "images.0") end; reflexivity).
  all: try (split; [reflexivity|]; rewrite Hcni0 by assumption; now apply Hup).
  all: match goal with |- context [etcdImageSupplied ?t] =>
         destruct (etcdImageSupplied t) end; reflexivity.
Qed.

Lemma absent_paths_leave_base_values_witness :
  let cfg := set_Etcd {| Local := Some (localEtcdOf imagesOnlyTree); External := None |}
               (baseConfig Sample.pkg) in
  dataSourceToInitConfig Sample.pkg imagesOnlyTree "" Sample.heap0 = (Ok cfg, Sample.heap0) /\
  absent imagesOnlyTree "images.0.kube_repo" /\
  ImageRepository (Cluster cfg) = ImageRepository (Cluster (baseConfig Sample.pkg)).
Proof.
  intros cfg.
  assert (E : dataSourceToInitConfig Sample.pkg imagesOnlyTree "" Sample.heap0
              = (Ok cfg, Sample.heap0)) by (vm_compute; reflexivity).
  split; [exact E|]. split; [reflexivity|].
  pose proof (absent_paths_leave_base_values Sample.pkg imagesOnlyTree "" Sample.heap0
                cfg Sample.heap0 E) as (_ & _ & _ & _ & _ & _ & H & _).
  apply H. reflexivity.
Defined.


(** ** The endpoint block, exactly *)

Lemma apiBlock_fields common d c h c' h' :
  apiBlock common d c h = (Ok c', h') ->
  certSANs c' = (certSANs c ++ expectedCertSANs d)%list /\
  AdvertiseAddress (LocalAPIEndpoint c') =
    match internalHostPort d with
    | Some (host, _) => host
    | None => AdvertiseAddress (LocalAPIEndpoint c)
    end /\
  BindPort (LocalAPIEndpoint c') =
    match internalHostPort d with
    | Some (_, port) =>
        if Bytes.isEmpty port then BindPort (LocalAPIEndpoint c)
        else match strconv.Atoi port with
             | inl i => int32 i
             | inr _ => BindPort (LocalAPIEndpoint c)
             end
    | None => BindPort (LocalAPIEndpoint c)
    end.
Proof.
  intros E. fields c. unfold apiBlock, apiInternal in E.
  unfold expectedCertSANs, internalHostPort, altNames.
  run_block;
    repeat (match goal with H : ?x = _ |- context [?x] => rewrite H end; cbn beta iota);
    rewrite ?app_nil_r, <- ?app_assoc; repeat split; try reflexivity.
  all: destruct s0; try discriminate; try reflexivity.
Qed.

(** Nothing after the first block touches what it set. *)
Lemma fromSourceTree_api_fields common d h c h' :
  fromSourceTree common d h = (Ok c, h') ->
  exists c1, apiBlock common d (baseConfig common) h = (Ok c1, h) /\
             LocalAPIEndpoint c = LocalAPIEndpoint c1 /\ certSANs c = certSANs c1.
Proof.
  intros E. chain_inv E. exists c1.
  pose proof (apiBlock_ok _ _ _ _ _ _ E1) as (-> & _). split; [exact E1|]. clear E1.
  frame_network E2. frame_images E3. frame_cni E6. frame_version E7. frame_etcd E8.
  frame_cloud E5; frame_runtime E4; split; reflexivity.
Qed.

Lemma run_api_fields common d token h cfg h' :
  dataSourceToInitConfig common d token h = (Ok cfg, h') ->
  exists c1, apiBlock common d (baseConfig common) h = (Ok c1, h) /\
             LocalAPIEndpoint cfg = LocalAPIEndpoint c1 /\ certSANs cfg = certSANs c1.
Proof.
  intros E. apply dataSourceToInitConfig_inv in E. destruct E as (c0 & h0 & E & Et).
  apply fromSourceTree_api_fields in E. destruct E as (c1 & E1 & Hl & Hs).
  exists c1. split; [exact E1|]. frame_token Et; split; assumption.
Qed.

Lemma apiBlock_alt_names common d c h c' h' v :
  apiBlock common d c h = (Ok c', h') ->
  GetOk d "api.0" <> None -> GetOk d "api.0.alt_names" = Some v ->
  exists l, v = VStrings l.
Proof.
  intros E Ha Hv. unfold apiBlock in E.
  destruct (GetOk d "api.0") as [v0|] eqn:H0; [|congruence].
  rewrite (whenOk_present _ _ _ _ _ H0) in E.
  apply bind_ok_inv in E. destruct E as (ca & ha & _ & E).
  apply bind_ok_inv in E. destruct E as (cb & hb & _ & E).
  unfold whenOk in E. rewrite Hv in E.
  destruct v; try (rewrite bind_run in E; discriminate E). eauto.
Qed.

(** X1. On a tree as the library hands it out, the certificate names of a
    returned record are the host of the internal endpoint alone, or none
    without an internal endpoint: alternate names never reach a returned
    record, since a tree that sets them makes line 71 panic. *)
Theorem cert_names_are_the_internal_host common d token h cfg h' :
  fromResourceData d ->
  dataSourceToInitConfig common d token h = (Ok cfg, h') ->
  certSANs cfg = match internalHostPort d with
                 | Some (host, _) => [host]
                 | None => []
                 end /\
  (GetOk d "api.0" <> None -> GetOk d "api.0.alt_names" = None).
Proof.
  intros Hd E. apply run_api_fields in E. destruct E as (c1 & E1 & _ & ->).
  split.
  - apply apiBlock_fields in E1. destruct E1 as (-> & _).
    unfold expectedCertSANs. rewrite (altNames_handedOut d Hd), app_nil_r. reflexivity.
  - intros Ha. destruct (GetOk d "api.0.alt_names") as [v|] eqn:Hv; [|reflexivity].
    destruct (apiBlock_alt_names _ _ _ _ _ _ _ E1 Ha Hv) as (l & ->).
    pose proof (fromResourceData_lookup _ _ _ Hd Hv) as Hh. discriminate Hh.
Qed.

Lemma cert_names_are_the_internal_host_witness :
  let d : gmap string value :=
    {[ "api.0" := VOther; "api.0.internal" := VString "10.0.0.5:6443" ]} in
  let cfg := set_CertSANs ["10.0.0.5"]
               (set_BindPort 6443 (set_AdvertiseAddress "10.0.0.5" (baseConfig Sample.pkg))) in
  fromResourceData d /\
  dataSourceToInitConfig Sample.pkg d "" Sample.heap0 = (Ok cfg, Sample.heap0) /\
  certSANs cfg = ["10.0.0.5"].
Proof.
  intros d cfg.
  assert (Hd : fromResourceData d) by handed_out.
  assert (E : dataSourceToInitConfig Sample.pkg d "" Sample.heap0 = (Ok cfg, Sample.heap0))
    by (vm_compute; reflexivity).
  split; [exact Hd|]. split; [exact E|].
  rewrite (proj1 (cert_names_are_the_internal_host Sample.pkg d "" Sample.heap0 cfg
                    Sample.heap0 Hd E)).
  reflexivity.
Defined.

(** X2. In a returned record the advertise address is the host of the
    internal endpoint and one of the certificate names; without an internal
    endpoint it is empty. *)
Theorem advertise_address_is_a_cert_name common d token h cfg h' :
  dataSourceToInitConfig common d token h = (Ok cfg, h') ->
  match internalHostPort d with
  | Some (host, _) =>
      AdvertiseAddress (LocalAPIEndpoint cfg) = host /\ In host (certSANs cfg)
  | None => AdvertiseAddress (LocalAPIEndpoint cfg) = ""
  end.
Proof.
  intros E. apply run_api_fields in E. destruct E as (c1 & E1 & -> & ->).
  apply apiBlock_fields in E1. destruct E1 as (-> & -> & _).
  unfold expectedCertSANs. destruct (internalHostPort d) as [[host port]|].
  - split; [reflexivity|]. cbn. left. reflexivity.
  - reflexivity.
Qed.

Lemma advertise_address_is_a_cert_name_witness :
  let d : gmap string value :=
    {[ "api.0" := VOther; "api.0.internal" := VString "[fd00::1]:6443" ]} in
  let cfg := set_CertSANs ["fd00::1"]
               (set_BindPort 6443 (set_AdvertiseAddress "fd00::1" (baseConfig Sample.pkg))) in
  dataSourceToInitConfig Sample.pkg d "" Sample.heap0 = (Ok cfg, Sample.heap0) /\
  AdvertiseAddress (LocalAPIEndpoint cfg) = "fd00::1" /\ In "fd00::1" (certSANs cfg).
Proof.
  intros d cfg.
  assert (E : dataSourceToInitConfig Sample.pkg d "" Sample.heap0 = (Ok cfg, Sample.heap0))
    by (vm_compute; reflexivity).
  split; [exact E|].
  exact (advertise_address_is_a_cert_name Sample.pkg d "" Sample.heap0 cfg Sample.heap0 E).
Defined.

(** ** The bind port *)

Lemma int32_range i : (- 2 ^ 31 <= int32 i < 2 ^ 31)%Z.
Proof.
  unfold int32. pose proof (Z.mod_pos_bound (i + 2 ^ 31) (2 ^ 32) ltac:(lia)). lia.
Qed.

Lemma int32_congruent i : exists k, (i = int32 i + k * 2 ^ 32)%Z.
Proof.
  unfold int32. exists ((i + 2 ^ 31) / 2 ^ 32)%Z.
  pose proof (Z.div_mod (i + 2 ^ 31) (2 ^ 32) ltac:(lia)). lia.
Qed.

(** X3. The bind port of a returned record lies in the range of [int32].
    The port of the internal endpoint is not checked against the range of
    ports: the bind port is its value up to a multiple of 2^32. *)
Theorem bind_port_is_the_port_modulo_int32 common d token h cfg h' :
  dataSourceToInitConfig common d token h = (Ok cfg, h') ->
  (- 2 ^ 31 <= BindPort (LocalAPIEndpoint cfg) < 2 ^ 31)%Z /\
  (forall host port, internalHostPort d = Some (host, port) -> port <> "" ->
     exists k, (signedValue port = BindPort (LocalAPIEndpoint cfg) + k * 2 ^ 32)%Z) /\
  (forall host, internalHostPort d = Some (host, "") ->
     BindPort (LocalAPIEndpoint cfg) = 0%Z) /\
  (internalHostPort d = None -> BindPort (LocalAPIEndpoint cfg) = 0%Z).
Proof.
  intros E. pose proof E as E0.
  apply run_api_fields in E. destruct E as (c1 & E1 & -> & _).
  pose proof (apiBlock_fields _ _ _ _ _ _ E1) as (_ & _ & Hb). rewrite Hb. clear Hb.
  cbn [baseConfig LocalAPIEndpoint BindPort].
  destruct (internalHostPort d) as [[host port]|] eqn:Hi.
  - assert (Hport : port <> "" -> exists i, strconv.Atoi port = inl i).
    { intros Hp. unfold internalHostPort in Hi.
      destruct (GetOk d "api.0") eqn:Ha; [|discriminate].
      destruct (GetOk d "api.0.internal") as [[s| | | |]|] eqn:Hs; try discriminate.
      destruct (net.SplitHostPort s) as [hp|] eqn:Hsp; [|discriminate].
      inversion Hi. subst hp.
      assert (Ha' : GetOk d "api.0" <> None) by congruence.
      destruct (apiBlock_internal_ok common d _ _ _ _ _ _ _ Hs Hsp Hp Ha' E1)
        as (i & Hat & _). eauto. }
    destruct port as [|a port]; cbn [Bytes.isEmpty].
    + split; [lia|]. split; [intros host0 port0 Heq Hne; inversion Heq; congruence|].
      split; [reflexivity|discriminate].
    + destruct (Hport ltac:(discriminate)) as (i & Hat). rewrite Hat.
      split; [apply int32_range|]. split; [|split; [discriminate|discriminate]].
      intros host0 port0 Heq _. inversion Heq. subst host0 port0.
      apply Atoi_inl_iff in Hat. destruct Hat as (_ & -> & _). apply int32_congruent.
  - split; [lia|]. split; [discriminate|]. split; [discriminate|reflexivity].
Qed.

Lemma bind_port_is_the_port_modulo_int32_witness :
  let d : gmap string value :=
    {[ "api.0" := VOther; "api.0.internal" := VString "10.0.0.5:4294973739" ]} in
  let cfg := set_CertSANs ["10.0.0.5"]
               (set_BindPort 6443 (set_AdvertiseAddress "10.0.0.5" (baseConfig Sample.pkg))) in
  dataSourceToInitConfig Sample.pkg d "" Sample.heap0 = (Ok cfg, Sample.heap0) /\
  (- 2 ^ 31 <= BindPort (LocalAPIEndpoint cfg) < 2 ^ 31)%Z /\
  signedValue "4294973739" = (6443 + 1 * 2 ^ 32)%Z.
Proof.
  intros d cfg.
  assert (E : dataSourceToInitConfig Sample.pkg d "" Sample.heap0 = (Ok cfg, Sample.heap0))
    by (vm_compute; reflexivity).
  split; [exact E|]. split; [|reflexivity].
  exact (proj1 (bind_port_is_the_port_modulo_int32 Sample.pkg d "" Sample.heap0 cfg
                  Sample.heap0 E)).
Defined.

(** ** Splitting host and port *)

Lemma append_nil s : "" +:+ s = s.
Proof. reflexivity. Qed.

Lemma append_cons a s t : String a s +:+ t = String a (s +:+ t).
Proof. reflexivity. Qed.

Lemma IndexByte_plain s c :
  plainPart s = true -> c = ":"%char \/ c = "["%char \/ c = "]"%char ->
  Bytes.IndexByte s c = None.
Proof.
  intros Hs Hc. induction s as [|a s IH]; [reflexivity|].
  cbn [plainPart] in Hs. cbn [Bytes.IndexByte].
  apply andb_prop in Hs. destruct Hs as [Hs Hrest].
  apply andb_prop in Hs. destruct Hs as [Hs H3].
  apply andb_prop in Hs. destruct Hs as [H1 H2].
  rewrite (IH Hrest).
  destruct Hc as [-> | [-> | ->]].
  - destruct (Ascii.eqb a ":"); [discriminate|reflexivity].
  - destruct (Ascii.eqb a "["); [discriminate|reflexivity].
  - destruct (Ascii.eqb a "]"); [discriminate|reflexivity].
Qed.

Lemma LastIndexByte_none s c :
  Bytes.IndexByte s c = None -> Bytes.LastIndexByte s c = None.
Proof.
  induction s as [|a s IH]; [reflexivity|]. cbn [Bytes.IndexByte Bytes.LastIndexByte].
  destruct (Ascii.eqb a c); [discriminate|].
  destruct (Bytes.IndexByte s c); [discriminate|]. intros _. rewrite IH; reflexivity.
Qed.

Lemma LastIndexByte_join host port :
  Bytes.LastIndexByte port ":" = None ->
  Bytes.LastIndexByte (host +:+ String ":" port) ":" = Some (String.length host).
Proof.
  intros Hp. induction host as [|a host IH];
    rewrite ?append_nil, ?append_cons; cbn [Bytes.LastIndexByte String.length].
  - rewrite Hp. reflexivity.
  - rewrite IH. reflexivity.
Qed.

Lemma IndexByte_app_none s1 s2 c :
  Bytes.IndexByte s1 c = None -> Bytes.IndexByte s2 c = None ->
  Bytes.IndexByte (s1 +:+ s2) c = None.
Proof.
  intros H1 H2. induction s1 as [|a s1 IH]; [exact H2|].
  rewrite append_cons. cbn [Bytes.IndexByte] in *.
  destruct (Ascii.eqb a c); [discriminate|].
  destruct (Bytes.IndexByte s1 c); [discriminate|]. rewrite IH; reflexivity.
Qed.

Lemma upto_join s t : Bytes.upto (String.length s) (s +:+ t) = s.
Proof.
  unfold Bytes.upto. induction s as [|a s IH];
    rewrite ?append_nil, ?append_cons; cbn [String.length String.substring].
  - destruct t; reflexivity.
  - rewrite IH. reflexivity.
Qed.

Lemma from_0 s : Bytes.from 0 s = s.
Proof.
  unfold Bytes.from. rewrite Nat.sub_0_r. induction s as [|a s IH]; cbn; [reflexivity|].
  rewrite IH. reflexivity.
Qed.

Lemma from_join host port :
  Bytes.from (S (String.length host)) (host +:+ String ":" port) = port.
Proof.
  induction host as [|a host IH]; rewrite ?append_nil, ?append_cons.
  - change (Bytes.from 1 (String ":" port))
      with (String.substring 0 (String.length port - 0) port).
    apply from_0.
  - exact IH.
Qed.

Lemma prefix_bracket_plain host rest :
  plainPart host = true -> String.prefix "[" (host +:+ String ":" rest) = false.
Proof.
  destruct host as [|a host]; [reflexivity|]. rewrite append_cons.
  cbn [plainPart String.prefix].
  intros Hs. apply andb_prop in Hs. destruct Hs as [Hs _].
  apply andb_prop in Hs. destruct Hs as [Hs _].
  apply andb_prop in Hs. destruct Hs as [_ H2].
  destruct (ascii_dec "[" a) as [<-|]; [discriminate|reflexivity].
Qed.

Lemma SplitHostPort_join host port :
  plainPart host = true -> plainPart port = true ->
  net.SplitHostPort (host +:+ String ":" port) = inl (host, port).
Proof.
  intros Hh Hp. unfold net.SplitHostPort.
  rewrite LastIndexByte_join by (apply LastIndexByte_none, IndexByte_plain; auto).
  rewrite prefix_bracket_plain by exact Hh.
  rewrite upto_join. unfold Bytes.contains.
  rewrite (IndexByte_plain host ":") by auto.
  unfold net.checkBrackets, Bytes.contains. rewrite from_0.
  assert (Hrest : forall c, c = "["%char \/ c = "]"%char ->
             Bytes.IndexByte (host +:+ String ":" port) c = None).
  { intros c Hc. apply IndexByte_app_none; [apply IndexByte_plain; tauto|].
    cbn [Bytes.IndexByte]. rewrite (IndexByte_plain port c) by tauto.
    destruct Hc as [-> | ->]; reflexivity. }
  rewrite !Hrest by auto. rewrite from_join. reflexivity.
Qed.

Lemma SplitHostPort_no_colon s :
  Bytes.IndexByte s ":" = None ->
  net.SplitHostPort s = inr (AddrError "missing port in address" s).
Proof.
  intros H. unfold net.SplitHostPort. rewrite (LastIndexByte_none _ _ H). reflexivity.
Qed.

Lemma int32_id i : (- 2 ^ 31 <= i < 2 ^ 31)%Z -> int32 i = i.
Proof. intros Hi. unfold int32. rewrite Z.mod_small by lia. lia. Qed.

(** X4. An internal endpoint written as a host, a colon and a port, both
    without colons and square brackets, is split at the colon: the record
    gets the host as advertise address and, as bind port, the value of the
    port converted to [int32], which is the value itself when it lies in the
    range of [int32]; the step of lines 52-68 goes through whenever the port
    is empty or a decimal integer in the range of [int]. *)
Theorem internal_endpoint_splits_at_the_colon common d token h host port :
  plainPart host = true -> plainPart port = true ->
  GetOk d "api.0" <> None ->
  GetOk d "api.0.internal" = Some (VString (host +:+ String ":" port)) ->
  internalHostPort d = Some (host, port) /\
  (forall cfg h',
     dataSourceToInitConfig common d token h = (Ok cfg, h') ->
     AdvertiseAddress (LocalAPIEndpoint cfg) = host /\
     (port <> "" -> BindPort (LocalAPIEndpoint cfg) = int32 (signedValue port)) /\
     (port <> "" -> (- 2 ^ 31 <= signedValue port < 2 ^ 31)%Z ->
        BindPort (LocalAPIEndpoint cfg) = signedValue port)) /\
  (forall c,
     port = "" \/
     (isSignedDecimal port = true /\ (- 2 ^ 63 <= signedValue port < 2 ^ 63)%Z) ->
     exists c', apiInternal (VString (host +:+ String ":" port)) c h = (Ok c', h) /\
                AdvertiseAddress (LocalAPIEndpoint c') = host).
Proof.
  intros Hh Hp Ha Hi.
  assert (Hsplit : internalHostPort d = Some (host, port)).
  { unfold internalHostPort. destruct (GetOk d "api.0"); [|congruence].
    rewrite Hi, (SplitHostPort_join host port Hh Hp). reflexivity. }
  split; [exact Hsplit|]. split.
  - intros cfg h' E. pose proof E as E0.
    apply run_api_fields in E. destruct E as (c1 & E1 & -> & _).
    pose proof (apiBlock_fields _ _ _ _ _ _ E1) as (_ & Hadr & _).
    rewrite Hadr, Hsplit. split; [reflexivity|].
    assert (Hb : port <> "" -> BindPort (LocalAPIEndpoint c1) = int32 (signedValue port)).
    { intros Hne.
      destruct (apiBlock_internal_ok common d _ _ _ _ _ _ _ Hi
                  (SplitHostPort_join host port Hh Hp) Hne Ha E1) as (i & Hat & Hb & _).
      rewrite Hb. apply Atoi_inl_iff in Hat. destruct Hat as (_ & -> & _). reflexivity. }
    split; [exact Hb|]. intros Hne Hr. rewrite (Hb Hne). apply int32_id. exact Hr.
  - intros c Hport. unfold apiInternal. cbn [assertString].
    rewrite bind_run. cbn [mret M_ret].
    rewrite (SplitHostPort_join host port Hh Hp). cbn [try]. rewrite bind_run.
    cbn [mret M_ret]. destruct Hport as [-> | (D & R)].
    + cbn [Bytes.isEmpty negb]. rewrite bind_run. cbn [mret M_ret].
      eexists. split; reflexivity.
    + destruct port as [|a port]; [discriminate|]. cbn [Bytes.isEmpty negb].
      rewrite !bind_run.
      rewrite (proj2 (Atoi_inl_iff _ (signedValue (String a port)))) by auto.
      cbn [try mret M_ret]. eexists. split; reflexivity.
Qed.

Lemma internal_endpoint_splits_at_the_colon_witness :
  let d : gmap string value :=
    {[ "api.0" := VOther; "api.0.internal" := VString "master.local:6443" ]} in
  let cfg := set_CertSANs ["master.local"]
               (set_BindPort 6443 (set_AdvertiseAddress "master.local" (baseConfig Sample.pkg))) in
  internalHostPort d = Some ("master.local", "6443") /\
  dataSourceToInitConfig Sample.pkg d "" Sample.heap0 = (Ok cfg, Sample.heap0) /\
  BindPort (LocalAPIEndpoint cfg) = 6443%Z /\
  exists c', apiInternal (VString "master.local:6443") (baseConfig Sample.pkg) Sample.heap0
             = (Ok c', Sample.heap0) /\
             AdvertiseAddress (LocalAPIEndpoint c') = "master.local".
Proof.
  intros d cfg.
  assert (Ha : GetOk d "api.0" <> None) by discriminate.
  assert (E : dataSourceToInitConfig Sample.pkg d "" Sample.heap0 = (Ok cfg, Sample.heap0))
    by (vm_compute; reflexivity).
  pose proof (internal_endpoint_splits_at_the_colon Sample.pkg d "" Sample.heap0
                "master.local" "6443" eq_refl eq_refl Ha eq_refl) as (H1 & H2 & H3).
  split; [exact H1|]. split; [exact E|]. split.
  - rewrite (proj2 (proj2 (H2 cfg Sample.heap0 E)));
      [reflexivity | discriminate | change (signedValue "6443") with 6443%Z; lia].
  - apply H3. right. split; [reflexivity|].
    change (signedValue "6443") with 6443%Z. lia.
Defined.

(** X5. An internal endpoint without a colon makes the derivation return the
    address error [missing port in address], whatever else the tree holds
    after the endpoint block; no map has been written by then. *)
Theorem internal_endpoint_needs_a_colon common d token h internal :
  GetOk d "api.0" <> None ->
  GetOk d "api.0.internal" = Some (VString internal) ->
  Bytes.IndexByte internal ":" = None ->
  (GetOk d "api.0.external" = None \/
   exists external, GetOk d "api.0.external" = Some (VString external)) ->
  dataSourceToInitConfig common d token h =
  (Err (AddrError "missing port in address" internal), h).
Proof.
  intros Ha Hi Hc Hx. unfold dataSourceToInitConfig, fromSourceTree.
  rewrite bind_run, bind_run.
  assert (E : apiBlock common d (baseConfig common) h
              = (Err (AddrError "missing port in address" internal), h)).
  { unfold apiBlock, whenOk. destruct (GetOk d "api.0"); [|congruence]. rewrite Hi.
    destruct Hx as [-> | (x & ->)];
      unfold apiInternal, assertString, mbind, M_bind, mret, M_ret; cbn beta iota;
      rewrite (SplitHostPort_no_colon _ Hc); reflexivity. }
  rewrite E. reflexivity.
Qed.

Lemma internal_endpoint_needs_a_colon_witness :
  dataSourceToInitConfig Sample.pkg
    {[ "api.0" := VOther; "api.0.internal" := VString "10.0.0.5" ]} "" Sample.heap0
  = (Err (AddrError "missing port in address" "10.0.0.5"), Sample.heap0).
Proof.
  apply internal_endpoint_needs_a_colon.
  - discriminate.
  - reflexivity.
  - reflexivity.
  - left. reflexivity.
Defined.

(** ** The upstream resolvers *)

(** Unfold the whole derivation down to the lookups in the tree. *)
Ltac unfold_run :=
  unfold dataSourceToInitConfig, fromSourceTree, apiBlock, networkBlock, dnsDomainStep,
    dnsUpstreamStep, imagesBlock, runtimeBlock, runtimeEngine, runtimeExtraArgs,
    cloudProviderBlock, cniBlock, versionBlock, etcdBlock, whenOk, Get, GetOk.

(** Resolve the lookups in a tree changed at one path. *)
Ltac lookup_changed :=
  repeat match goal with
         | |- context [<[?i := ?x]> ?m !! ?j] =>
             first [ rewrite (lookup_insert_ne m i j x) by discriminate
                   | rewrite (lookup_insert_eq m i x) ]
         | |- context [delete ?i ?m !! ?j] =>
             first [ rewrite (lookup_delete_ne m i j) by discriminate
                   | rewrite (lookup_delete_eq m i) ]
         end.

(** X6. Of the upstream resolvers only their presence counts: two trees that
    differ in the contents of a non-empty resolver list give the same result,
    and an empty list gives the result of the tree without the path. *)
Theorem upstream_resolvers_only_trigger common d token h :
  (forall l1 l2, l1 <> [] -> l2 <> [] ->
     dataSourceToInitConfig common (<["network.0.dns.0.upstream" := VList l1]> d) token h =
     dataSourceToInitConfig common (<["network.0.dns.0.upstream" := VList l2]> d) token h) /\
  dataSourceToInitConfig common (<["network.0.dns.0.upstream" := VList []]> d) token h =
  dataSourceToInitConfig common (delete "network.0.dns.0.upstream" d) token h.
Proof.
  split.
  - intros l1 l2 H1 H2. unfold_run.
    lookup_changed. cbn [assertList].
    destruct l1 as [|x1 l1]; [congruence|]. destruct l2 as [|x2 l2]; [congruence|].
    reflexivity.
  - unfold_run.
    lookup_changed.
    unfold mbind, M_bind, mret, M_ret. cbn [assertList length Nat.ltb Nat.leb].
    reflexivity.
Qed.

Lemma upstream_resolvers_only_trigger_witness :
  dataSourceToInitConfig Sample.pkg
    (<["network.0.dns.0.upstream" := VList [VString "8.8.8.8"]]> (dnsTree "cluster.local"))
    "" Sample.heap0 =
  dataSourceToInitConfig Sample.pkg
    (<["network.0.dns.0.upstream" := VList [VString "1.1.1.1"; VOther]]>
       (dnsTree "cluster.local")) "" Sample.heap0.
Proof.
  apply (proj1 (upstream_resolvers_only_trigger Sample.pkg (dnsTree "cluster.local") ""
                  Sample.heap0)); discriminate.
Defined.

(** ** The CNI directories *)

Lemma cniBlock_dirs d c h c' h' :
  cniBlock d c h = (Ok c', h') ->
  GetOk d "cni.0" <> None ->
  (forall s, GetOk d "cni.0.conf_dir" = Some (VString s) ->
     contents h' (kubeletArgs c) !! "cni-conf-dir" = Some s) /\
  (forall s, GetOk d "cni.0.bin_dir" = Some (VString s) ->
     contents h' (kubeletArgs c) !! "cni-bin-dir" = Some s).
Proof.
  intros E H0. unfold cniBlock in E. unfold kubeletArgs. run_block; try congruence.
  all: split; intros s0 Hs; try congruence; cbn [contents];
    rewrite ?store_lookup;
    repeat (first [ rewrite decide_True by auto
                  | rewrite decide_False by (intros [_ ?]; discriminate) ]);
    congruence.
Qed.

(** X7. The CNI directories of a present CNI block are in the kubelet
    extra-args of the returned record, under [cni-bin-dir] and
    [cni-conf-dir]. *)
Theorem cni_directories_reach_the_kubelet common d token h cfg h' :
  dataSourceToInitConfig common d token h = (Ok cfg, h') ->
  GetOk d "cni.0" <> None ->
  (forall s, GetOk d "cni.0.bin_dir" = Some (VString s) ->
     contents h' (kubeletArgs cfg) !! "cni-bin-dir" = Some s) /\
  (forall s, GetOk d "cni.0.conf_dir" = Some (VString s) ->
     contents h' (kubeletArgs cfg) !! "cni-conf-dir" = Some s).
Proof.
  intros E H0. apply dataSourceToInitConfig_inv in E. destruct E as (c0 & h0 & E & Et).
  chain_inv E. pose proof (cniBlock_dirs _ _ _ _ _ E6 H0) as (Hconf & Hbin).
  frame_cni E6. frame_version E7. frame_etcd E8.
  frame_token Et; split; assumption.
Qed.

Lemma cni_directories_reach_the_kubelet_witness :
  let d : gmap string value :=
    {[ "cni.0" := VOther; "cni.0.bin_dir" := VString "/opt/cni/bin";
       "cni.0.conf_dir" := VString "/etc/cni/net.d" ]} in
  let h' : gmap loc (gmap string string) :=
    {[ 1%positive := {[ "network-plugin" := "cni"; "cni-bin-dir" := "/opt/cni/bin";
                        "cni-conf-dir" := "/etc/cni/net.d" ]} ]} in
  dataSourceToInitConfig Sample.pkg d "" Sample.heap0 = (Ok (baseConfig Sample.pkg), h') /\
  contents h' (kubeletArgs (baseConfig Sample.pkg)) !! "cni-bin-dir" = Some "/opt/cni/bin".
Proof.
  intros d h'.
  assert (E : dataSourceToInitConfig Sample.pkg d "" Sample.heap0
              = (Ok (baseConfig Sample.pkg), h')) by (vm_compute; reflexivity).
  split; [exact E|].
  assert (H0 : GetOk d "cni.0" <> None) by discriminate.
  exact (proj1 (cni_directories_reach_the_kubelet Sample.pkg d "" Sample.heap0 _ h' E H0)
           _ eq_refl).
Defined.

(** ** Values of another dynamic type *)

Lemma apiInternal_outcome internal c h :
  match internalError internal with
  | Some e => apiInternal (VString internal) c h = (Err e, h)
  | None => exists c', apiInternal (VString internal) c h = (Ok c', h)
  end.
Proof.
  unfold internalError, apiInternal. cbn [assertString].
  rewrite bind_run. cbn [mret M_ret].
  destruct (net.SplitHostPort internal) as [[host port]|e]; cbn [try];
    rewrite bind_run; cbn [mret M_ret fail]; [|reflexivity].
  destruct port as [|a port]; cbn [Bytes.isEmpty negb].
  - rewrite bind_run. cbn [mret M_ret]. eexists. reflexivity.
  - rewrite !bind_run. destruct (strconv.Atoi (String a port)) as [i|e]; cbn [try mret M_ret fail].
    + eexists. reflexivity.
    + reflexivity.
Qed.

Lemma apiBlock_alt_names_outcome common d c h v :
  GetOk d "api.0" <> None ->
  GetOk d "api.0.alt_names" = Some v ->
  (forall l, v <> VStrings l) ->
  (apiBlock common d c h = (Panic, h) \/
   exists internal e,
     GetOk d "api.0.internal" = Some (VString internal) /\
     internalError internal = Some e /\
     apiBlock common d c h = (Err e, h)) /\
  ((forall internal, GetOk d "api.0.internal" = Some (VString internal) ->
      internalError internal = None) ->
   apiBlock common d c h = (Panic, h)).
Proof.
  intros Ha Hv Hn. unfold apiBlock.
  destruct (GetOk d "api.0") as [v0|] eqn:H0; [|congruence].
  rewrite (whenOk_present _ _ _ _ _ H0).
  assert (Hlast : forall c0 h0,
            whenOk d "api.0.alt_names"
              (fun altNames c => l ← assertStrings altNames;
                                 mret (set_CertSANs (certSANs c ++ l) c)) c0 h0
            = (Panic, h0)).
  { intros c0 h0. unfold whenOk. rewrite Hv.
    destruct v; try reflexivity. exfalso. eapply Hn. reflexivity. }
  rewrite bind_run.
  assert (Hx : (exists ca,
             whenOk d "api.0.external"
               (fun external c =>
                  s ← assertString external;
                  mret (set_ControlPlaneEndpoint
                          (AddressWithPort common s (DefAPIServerPort common)) c)) c h
             = (Ok ca, h)) \/
            whenOk d "api.0.external"
               (fun external c =>
                  s ← assertString external;
                  mret (set_ControlPlaneEndpoint
                          (AddressWithPort common s (DefAPIServerPort common)) c)) c h
             = (Panic, h)).
  { unfold whenOk. destruct (GetOk d "api.0.external") as [[s| | | |]|];
      first [left; eexists; reflexivity | right; reflexivity]. }
  destruct Hx as [(ca & ->) | ->]; [|split; [left; reflexivity | intros _; reflexivity]].
  rewrite bind_run.
  destruct (GetOk d "api.0.internal") as [vi|] eqn:Hi.
  - rewrite (whenOk_present _ _ _ _ _ Hi).
    destruct vi as [internal| | | |];
      try (split; [left; reflexivity | intros _; reflexivity]).
    pose proof (apiInternal_outcome internal ca h) as Ho.
    destruct (internalError internal) as [e|] eqn:He.
    + rewrite Ho. split.
      * right. exists internal, e. repeat split. exact He.
      * intros Hok. specialize (Hok internal eq_refl). congruence.
    + destruct Ho as (cb & ->). cbn beta iota. rewrite Hlast.
      split; [left; reflexivity | intros _; reflexivity].
  - rewrite (whenOk_absent _ _ _ _ Hi). cbn [mret M_ret]. rewrite Hlast.
    split; [left; reflexivity | intros _; reflexivity].
Qed.

(** X8. Alternate names that are not a [[]string], such as the
    [[]interface{}] of strings the library hands out, never give a record
    and no map is written: the derivation panics, at the type assertion of
    line 71 if not before, unless the internal endpoint has failed to split
    or to parse before, and then it returns that error. *)
Theorem alt_names_of_another_type_panic common d token h v :
  GetOk d "api.0" <> None ->
  GetOk d "api.0.alt_names" = Some v ->
  (forall l, v <> VStrings l) ->
  (dataSourceToInitConfig common d token h = (Panic, h) \/
   exists internal e,
     GetOk d "api.0.internal" = Some (VString internal) /\
     internalError internal = Some e /\
     dataSourceToInitConfig common d token h = (Err e, h)) /\
  ((forall internal, GetOk d "api.0.internal" = Some (VString internal) ->
      internalError internal = None) ->
   dataSourceToInitConfig common d token h = (Panic, h)).
Proof.
  intros Ha Hv Hn.
  destruct (apiBlock_alt_names_outcome common d (baseConfig common) h v Ha Hv Hn)
    as (Hcases & Hpanic).
  assert (Hp : apiBlock common d (baseConfig common) h = (Panic, h) ->
               dataSourceToInitConfig common d token h = (Panic, h)).
  { intros E. unfold dataSourceToInitConfig, fromSourceTree.
    rewrite bind_run, bind_run, E. reflexivity. }
  split.
  - destruct Hcases as [E | (internal & e & Hi & He & E)].
    + left. exact (Hp E).
    + right. exists internal, e. split; [exact Hi|]. split; [exact He|].
      unfold dataSourceToInitConfig, fromSourceTree.
      rewrite bind_run, bind_run, E. reflexivity.
  - intros Hok. exact (Hp (Hpanic Hok)).
Qed.

Lemma alt_names_of_another_type_panic_witness :
  let d : gmap string value :=
    {[ "api.0" := VOther; "api.0.internal" := VString "10.0.0.5:6443";
       "api.0.alt_names" := VList [VString "a.example.com"] ]} in
  internalError "10.0.0.5:6443" = None /\
  dataSourceToInitConfig Sample.pkg d "" Sample.heap0 = (Panic, Sample.heap0).
Proof.
  intros d. split; [vm_compute; reflexivity|].
  assert (Ha : GetOk d "api.0" <> None) by discriminate.
  assert (Hn : forall l, VList [VString "a.example.com"] <> VStrings l) by discriminate.
  apply (proj2 (alt_names_of_another_type_panic Sample.pkg d "" Sample.heap0
                  (VList [VString "a.example.com"]) Ha eq_refl Hn)).
  intros internal Hi. vm_compute in Hi. inversion Hi. vm_compute. reflexivity.
Defined.

(** ** Sub-paths without their block *)

(** X9. The sub-paths of a block are read only when the block itself is
    present: a tree without any of the blocks, without cloud provider and
    version, gives the base record and writes no map, whatever sub-paths it
    holds. *)
Theorem sub_paths_need_their_block common d h :
  GetOk d "api.0" = None -> GetOk d "network.0" = None -> GetOk d "images.0" = None ->
  GetOk d "runtime.0" = None -> GetOk d "cloud.0.provider" = None ->
  GetOk d "cni.0" = None -> GetOk d "version" = None -> GetOk d "etcd.0" = None ->
  dataSourceToInitConfig common d "" h = (Ok (baseConfig common), h).
Proof.
  intros Ha Hn Hi Hr Hc Hcni Hv He.
  rewrite networkOnly_run by (repeat split; assumption).
  apply networkBlock_absent. exact Hn.
Qed.

Lemma sub_paths_need_their_block_witness :
  dataSourceToInitConfig Sample.pkg
    {[ "api.0.internal" := VString "no colon"; "network.0.dns.0.domain" := VString "_";
       "runtime.0.engine" := VString "podman-typo"; "cni.0.bin_dir" := VOther;
       "etcd.0.endpoints" := VList [VString "https://10.0.0.9:2379"] ]} "" Sample.heap0
  = (Ok (baseConfig Sample.pkg), Sample.heap0).
Proof. apply sub_paths_need_their_block; reflexivity. Defined.

(** ** What a run leaves of the maps *)

Lemma keepsEntries_refl h : keepsEntries h h.
Proof. intros l k. split; auto. Qed.

Lemma keepsEntries_trans h1 h2 h3 :
  keepsEntries h1 h2 -> keepsEntries h2 h3 -> keepsEntries h1 h3.
Proof.
  intros H12 H23 l k. destruct (H12 l k) as [A1 B1]. destruct (H23 l k) as [A2 B2].
  split.
  - intros Hk. rewrite A2, A1 by exact Hk. reflexivity.
  - auto.
Qed.

Lemma tidy_ret {A} (a : A) : tidy (mret a).
Proof. intros h. apply keepsEntries_refl. Qed.

Lemma tidy_fail {A} (e : error) : tidy (@fail A e).
Proof. intros h. apply keepsEntries_refl. Qed.

Lemma tidy_panic {A} : tidy (@panic A).
Proof. intros h. apply keepsEntries_refl. Qed.

Lemma tidy_try {A} (r : A + error) : tidy (try r).
Proof. destruct r; [apply tidy_ret | apply tidy_fail]. Qed.

Lemma tidy_bind {A B} (m : M A) (f : A -> M B) :
  tidy m -> (forall a, tidy (f a)) -> tidy (m ≫= f).
Proof.
  intros Hm Hf h. rewrite bind_run. specialize (Hm h).
  destruct (m h) as [[a|e|] h1]; cbn [snd] in *; [|exact Hm..].
  eapply keepsEntries_trans; [exact Hm|apply Hf].
Qed.

Lemma tidy_whenOk {A} d key (body : value -> A -> M A) c :
  (forall v, tidy (body v c)) -> tidy (whenOk d key body c).
Proof. intros Hb. unfold whenOk. destruct (GetOk d key); [apply Hb | apply tidy_ret]. Qed.

Lemma tidy_store (m : mapref) (k v : string) : In k writtenKeys -> tidy (store m k v).
Proof.
  intros Hk. destruct m as [g|]; [|apply tidy_panic].
  intros h l k'. cbn [store snd]. rewrite store_lookup. split.
  - intros Hn. rewrite decide_False; [reflexivity|]. intros [_ ->]. tauto.
  - intros Hs. case_decide; [eauto | exact Hs].
Qed.

Lemma tidy_newMap : tidy newMap.
Proof.
  intros h l k. cbn [newMap snd].
  destruct (decide (l = fresh (dom h))) as [->|Hl].
  - rewrite lookup_total_insert_eq, fresh_empty. auto.
  - rewrite lookup_total_insert_ne by congruence. auto.
Qed.

Lemma tidy_storeAlloc (m : mapref) (k v : string) :
  In k writtenKeys -> tidy (storeAlloc m k v).
Proof.
  intros Hk. unfold storeAlloc. apply tidy_bind.
  - destruct m; [apply tidy_ret | apply tidy_newMap].
  - intros l. apply tidy_bind; [apply tidy_store, Hk | intros; apply tidy_ret].
Qed.

Lemma tidy_assertString v : tidy (assertString v).
Proof. destruct v; first [apply tidy_ret | apply tidy_panic]. Qed.
Lemma tidy_assertStrings v : tidy (assertStrings v).
Proof. destruct v; first [apply tidy_ret | apply tidy_panic]. Qed.
Lemma tidy_assertList v : tidy (assertList v).
Proof. destruct v; first [apply tidy_ret | apply tidy_panic]. Qed.
Lemma tidy_assertMap v : tidy (assertMap v).
Proof. destruct v; first [apply tidy_ret | apply tidy_panic]. Qed.

(** Go through a computation, one step at a time. *)
Ltac tidy_steps :=
  repeat first
    [ apply tidy_ret | apply tidy_fail | apply tidy_panic | apply tidy_try
    | apply tidy_assertString | apply tidy_assertStrings
    | apply tidy_assertList | apply tidy_assertMap
    | apply tidy_store; cbn; tauto
    | apply tidy_storeAlloc; cbn; tauto
    | apply tidy_whenOk; intros
    | apply tidy_bind; [|intros]
    | match goal with
      | |- tidy (if ?b then _ else _) => destruct b
      | |- tidy (match ?x with _ => _ end) => destruct x
      | |- tidy (let '(_, _) := ?x in _) => destruct x
      end ].

Lemma tidy_run common d token : tidy (dataSourceToInitConfig common d token).
Proof.
  unfold dataSourceToInitConfig, fromSourceTree, apiBlock, apiInternal, networkBlock,
    dnsDomainStep, dnsUpstreamStep, imagesBlock, runtimeBlock, runtimeEngine,
    runtimeExtraArgs, cloudProviderBlock, cniBlock, versionBlock, etcdBlock, tokenBlock.
  tidy_steps.
Qed.

(** X10. However a run ends, with a record, an error or a panic, it has
    removed no entry of any map, and has changed or added entries under five
    keys only: [resolv-conf], [container-runtime-endpoint], [cloud-provider],
    [cni-bin-dir] and [cni-conf-dir]. *)
Theorem a_run_keeps_the_other_entries common d token h (l : loc) (k : string) :
  let h' := snd (dataSourceToInitConfig common d token h) in
  (~ In k writtenKeys -> (h' !!! l) !! k = (h !!! l) !! k) /\
  (is_Some ((h !!! l) !! k) -> is_Some ((h' !!! l) !! k)).
Proof. exact (tidy_run common d token h l k). Qed.

Lemma a_run_keeps_the_other_entries_witness :
  (snd (dataSourceToInitConfig Sample.pkg cloudTree "" Sample.heap0) !!! 1%positive)
    !! "network-plugin" = Some "cni".
Proof.
  assert (Hk : ~ In "network-plugin" writtenKeys) by (cbn; intuition discriminate).
  refine (eq_trans (proj1 (a_run_keeps_the_other_entries Sample.pkg cloudTree ""
                             Sample.heap0 1%positive "network-plugin") Hk) _).
  reflexivity.
Defined.

(** ** The extra arguments of a returned record *)

Lemma storeAlloc_dom (m : mapref) (k v : string) h l h' :
  storeAlloc m k v h = (Ok (Some l), h') ->
  l ∈ dom h' /\ (forall x, x ∈ dom h -> x ∈ dom h') /\ (m = None -> l ∉ dom h).
Proof.
  destruct m as [l0|]; intros E.
  - inversion E. subst. split; [|split].
    + rewrite dom_insert. set_solver.
    + intros x Hx. rewrite dom_insert. set_solver.
    + discriminate.
  - inversion E. subst. split; [|split].
    + rewrite dom_insert. set_solver.
    + intros x Hx. rewrite !dom_insert. set_solver.
    + intros _. apply is_fresh.
Qed.

Lemma cloudProviderBlock_fresh d c h c' h' :
  cloudProviderBlock d c h = (Ok c', h') ->
  cloudProviderNamed d = true ->
  apiServerArgs c = None -> controllerManagerArgs c = None ->
  exists lk la lc,
    kubeletArgs c' = Some lk /\ apiServerArgs c' = Some la /\
    controllerManagerArgs c' = Some lc /\ la <> lk /\ lc <> lk /\ la <> lc.
Proof.
  intros E Hn Ha Hc. unfold cloudProviderNamed in Hn. unfold cloudProviderBlock, whenOk in E.
  destruct (GetOk d "cloud.0.provider") as [[s| | | |]|]; try discriminate Hn.
  destruct s as [|a s]; [discriminate Hn|].
  cbn [assertString] in E. rewrite bind_run in E.
  cbn [mret M_ret String.length Nat.ltb Nat.leb] in E.
  apply bind_ok_inv in E. destruct E as (mk & h1 & E1 & E).
  apply bind_ok_inv in E. destruct E as (ma & h2 & E2 & E).
  apply bind_ok_inv in E. destruct E as (mc & h3 & E3 & E).
  inversion E. subst c' h'. clear E.
  change (apiServerArgs (set_KubeletExtraArgs mk c)) with (apiServerArgs c) in E2.
  change (controllerManagerArgs (set_APIServerExtraArgs ma (set_KubeletExtraArgs mk c)))
    with (controllerManagerArgs c) in E3.
  rewrite Ha in E2. rewrite Hc in E3.
  destruct (storeAlloc_run (kubeletArgs c) "cloud-provider" "external" h)
    as (lk & x1 & F1 & _). rewrite F1 in E1. inversion E1. subst mk x1. clear E1.
  destruct (storeAlloc_run None "cloud-provider" "external" h1)
    as (la & x2 & F2 & _). rewrite F2 in E2. inversion E2. subst ma x2. clear E2.
  destruct (storeAlloc_run None "cloud-provider" "external" h2)
    as (lc & x3 & F3 & _). rewrite F3 in E3. inversion E3. subst mc x3. clear E3.
  apply storeAlloc_dom in F1. destruct F1 as (Dk & _ & _).
  apply storeAlloc_dom in F2. destruct F2 as (Da & D12 & Fa).
  apply storeAlloc_dom in F3. destruct F3 as (_ & _ & Fc).
  exists lk, la, lc. repeat split.
  - intros ->. exact (Fa eq_refl Dk).
  - intros ->. exact (Fc eq_refl (D12 _ Dk)).
  - intros ->. exact (Fc eq_refl Da).
Qed.

Lemma withCloudProvider_empty :
  withCloudProvider ∅ = {[ "cloud-provider" := "external" ]}.
Proof. unfold withCloudProvider. apply insert_empty. Qed.

(** X11. On a tree as the library hands it out, the extra-args of a returned
    record never come from the tree. Those of the scheduler are nil; those
    of the kubelet are the package's default map, when that is not nil;
    those of the API server and of the controller manager are nil without a
    cloud provider, and with one they are maps holding the single entry
    [cloud-provider=external]. *)
Theorem extra_args_of_a_returned_record common d token h cfg h' :
  fromResourceData d ->
  dataSourceToInitConfig common d token h = (Ok cfg, h') ->
  schedulerArgs cfg = None /\
  (forall g, DefKubeletSettings common = Some g -> kubeletArgs cfg = Some g) /\
  (cloudProviderNamed d = false ->
     kubeletArgs cfg = DefKubeletSettings common /\
     apiServerArgs cfg = None /\ controllerManagerArgs cfg = None) /\
  (cloudProviderNamed d = true ->
     contents h' (apiServerArgs cfg) = {[ "cloud-provider" := "external" ]} /\
     contents h' (controllerManagerArgs cfg) = {[ "cloud-provider" := "external" ]}).
Proof.
  intros Hd E. apply dataSourceToInitConfig_inv in E. destruct E as (c0 & h0 & E & Et).
  chain_inv E.
  pose proof (cloudProviderBlock_fresh _ _ _ _ _ E5) as Hfresh.
  frame_api E1. frame_network E2. frame_images E3. frame_cni E6.
  frame_version E7. frame_etcd E8.
  frame_token Et; frame_cloud E5; frame_runtime E4; norm_fields.
  all: rewrite ?(argsAfter_handedOut d _ _ Hd) in *.
  all: unfold cloudProviderNamed in *.
  all: split; [reflexivity|].
  all: split; [intros g1 Hg1; try rewrite Hg1 in *;
               try (rewrite <- (Hlk _ eq_refl)); reflexivity|].
  all: split; [intros Hn; try (destruct Hcloud as [Hc0|Hc0]; rewrite Hc0 in *);
               try (rewrite Hcloud in Hn; destruct p; [congruence|discriminate Hn]);
               repeat split; reflexivity|].
  all: intros Hn.
  all: try (exfalso; destruct Hcloud as [Hc0|Hc0]; rewrite Hc0 in Hn; discriminate Hn).
  all: destruct (Hfresh Hn eq_refl eq_refl)
         as (lk' & la' & lc' & Hk' & Ha' & Hc' & Hak & Hck & _).
  all: inversion Hk'; inversion Ha'; inversion Hc'; subst lk' la' lc'.
  all: cbn [contents] in *; rewrite withCloudProvider_empty in Hha, Hhc.
  all: split; apply map_eq; intros k.
  all: rewrite Hcni by (left; intros Heq; inversion Heq; congruence).
  all: first [rewrite Hha | rewrite Hhc]; reflexivity.
Qed.

Lemma extra_args_of_a_returned_record_witness :
  let cfg := set_ControllerManagerExtraArgs (Some 3%positive)
               (set_APIServerExtraArgs (Some 2%positive) (baseConfig Sample.pkg)) in
  let h' : gmap loc (gmap string string) :=
    {[ 1%positive := {[ "network-plugin" := "cni"; "cloud-provider" := "external" ]};
       2%positive := {[ "cloud-provider" := "external" ]};
       3%positive := {[ "cloud-provider" := "external" ]} ]} in
  fromResourceData cloudTree /\
  dataSourceToInitConfig Sample.pkg cloudTree "" Sample.heap0 = (Ok cfg, h') /\
  contents h' (apiServerArgs cfg) = {[ "cloud-provider" := "external" ]} /\
  contents h' (controllerManagerArgs cfg) = {[ "cloud-provider" := "external" ]}.
Proof.
  intros cfg h'.
  assert (Hd : fromResourceData cloudTree) by handed_out.
  assert (E : dataSourceToInitConfig Sample.pkg cloudTree "" Sample.heap0 = (Ok cfg, h'))
    by (vm_compute; reflexivity).
  split; [exact Hd|]. split; [exact E|].
  exact (proj2 (proj2 (proj2 (extra_args_of_a_returned_record Sample.pkg cloudTree ""
                                Sample.heap0 cfg h' Hd E))) eq_refl).
Defined.

(** ** The fields that are copied *)

Lemma apiBlock_external common d c h c' h' :
  apiBlock common d c h = (Ok c', h') ->
  ControlPlaneEndpoint (Cluster c') =
    match GetOk d "api.0", GetOk d "api.0.external" with
    | Some _, Some (VString s) => AddressWithPort common s (DefAPIServerPort common)
    | _, _ => ControlPlaneEndpoint (Cluster c)
    end.
Proof.
  intros E. fields c. unfold apiBlock, apiInternal in E.
  run_block;
    repeat (match goal with H : ?x = _ |- context [?x] => rewrite H end; cbn beta iota);
    reflexivity.
Qed.

Lemma networkBlock_fields common d c h c' h' :
  networkBlock common d c h = (Ok c', h') ->
  PodSubnet (cc_Networking (Cluster c')) =
    match GetOk d "network.0", GetOk d "network.0.pods" with
    | Some _, Some (VString s) => s
    | _, _ => PodSubnet (cc_Networking (Cluster c))
    end /\
  ServiceSubnet (cc_Networking (Cluster c')) =
    match GetOk d "network.0", GetOk d "network.0.services" with
    | Some _, Some (VString s) => s
    | _, _ => ServiceSubnet (cc_Networking (Cluster c))
    end /\
  DNSDomain (cc_Networking (Cluster c')) =
    match GetOk d "network.0", GetOk d "network.0.dns.0", GetOk d "network.0.dns.0.domain" with
    | Some _, Some _, Some (VString s) => s
    | _, _, _ => DNSDomain (cc_Networking (Cluster c))
    end.
Proof.
  intros E. fields c. unfold networkBlock, dnsDomainStep, dnsUpstreamStep in E.
  run_block;
    repeat (match goal with H : ?x = _ |- context [?x] => rewrite H end; cbn beta iota);
    repeat split; reflexivity.
Qed.

Lemma versionBlock_fields d c h c' h' :
  versionBlock d c h = (Ok c', h') ->
  KubernetesVersion (Cluster c') =
    match GetOk d "version" with
    | Some (VString s) => if Bytes.isEmpty s then KubernetesVersion (Cluster c) else s
    | _ => KubernetesVersion (Cluster c)
    end.
Proof.
  intros E. fields c. unfold versionBlock in E.
  run_block;
    repeat (match goal with H : ?x = _ |- context [?x] => rewrite H end; cbn beta iota);
    try reflexivity.
  all: match goal with H : Bytes.isEmpty ?s = _ |- _ => destruct s end;
    cbn in *; congruence.
Qed.

(** X12. In a returned record the control-plane endpoint is the external
    address of the tree passed through [common.AddressWithPort] with the
    default API-server port; the two subnets, the DNS domain, the image
    repository and the version are the strings of the tree, taken as they
    are. Each is read only under its present block, and a field without its
    string is empty. *)
Theorem copied_fields_follow_the_tree common d token h cfg h' :
  dataSourceToInitConfig common d token h = (Ok cfg, h') ->
  ControlPlaneEndpoint (Cluster cfg) =
    match GetOk d "api.0", GetOk d "api.0.external" with
    | Some _, Some (VString s) => AddressWithPort common s (DefAPIServerPort common)
    | _, _ => ""
    end /\
  PodSubnet (cc_Networking (Cluster cfg)) =
    match GetOk d "network.0", GetOk d "network.0.pods" with
    | Some _, Some (VString s) => s
    | _, _ => ""
    end /\
  ServiceSubnet (cc_Networking (Cluster cfg)) =
    match GetOk d "network.0", GetOk d "network.0.services" with
    | Some _, Some (VString s) => s
    | _, _ => ""
    end /\
  DNSDomain (cc_Networking (Cluster cfg)) =
    match GetOk d "network.0", GetOk d "network.0.dns.0", GetOk d "network.0.dns.0.domain" with
    | Some _, Some _, Some (VString s) => s
    | _, _, _ => ""
    end /\
  ImageRepository (Cluster cfg) =
    match GetOk d "images.0" with
    | Some _ => stringOf (Get d "images.0.kube_repo")
    | None => ""
    end /\
  KubernetesVersion (Cluster cfg) =
    match GetOk d "version" with
    | Some (VString s) => s
    | _ => ""
    end.
Proof.
  intros E. apply dataSourceToInitConfig_inv in E. destruct E as (c0 & h0 & E & Et).
  chain_inv E.
  pose proof (apiBlock_external _ _ _ _ _ _ E1) as Xe.
  pose proof (networkBlock_fields _ _ _ _ _ _ E2) as (Xp & Xs & Xd).
  pose proof (versionBlock_fields _ _ _ _ _ E7) as Xv.
  frame_api E1. frame_network E2. frame_images E3. frame_cni E6.
  frame_version E7. frame_etcd E8.
  frame_token Et; frame_cloud E5; frame_runtime E4.
  all: norm_fields; rewrite Xe, Xp, Xs, Xd, Xv.
  all: repeat split; try reflexivity.
  all: destruct (GetOk d "version") as [[s| | | |]|]; try reflexivity;
    destruct s; reflexivity.
Qed.

Lemma copied_fields_follow_the_tree_witness :
  let d : gmap string value :=
    {[ "api.0" := VOther; "api.0.external" := VString "lb.example.com";
       "network.0" := VOther; "network.0.pods" := VString "not a CIDR";
       "network.0.dns.0" := VOther; "network.0.dns.0.domain" := VString "cluster.local";
       "version" := VString "v1.14.1" ]} in
  let cfg := set_ControlPlaneEndpoint "lb.example.com:6443"
               (set_KubernetesVersion "v1.14.1"
                  (set_DNSDomain "cluster.local"
                     (set_PodSubnet "not a CIDR" (baseConfig Sample.pkg)))) in
  dataSourceToInitConfig Sample.pkg d "" Sample.heap0 = (Ok cfg, Sample.heap0) /\
  ControlPlaneEndpoint (Cluster cfg) = "lb.example.com:6443" /\
  PodSubnet (cc_Networking (Cluster cfg)) = "not a CIDR" /\
  ServiceSubnet (cc_Networking (Cluster cfg)) = "" /\
  DNSDomain (cc_Networking (Cluster cfg)) = "cluster.local".
Proof.
  intros d cfg.
  assert (E : dataSourceToInitConfig Sample.pkg d "" Sample.heap0 = (Ok cfg, Sample.heap0))
    by (vm_compute; reflexivity).
  split; [exact E|].
  pose proof (copied_fields_follow_the_tree Sample.pkg d "" Sample.heap0 cfg Sample.heap0 E)
    as (He & Hp & Hs & Hd & _).
  split; [rewrite He; reflexivity|].
  split; [exact Hp|]. split; [exact Hs | exact Hd].
Defined.

(** ** The resolv.conf entry *)

Lemma networkBlock_upstream common d c h c' h' l :
  networkBlock common d c h = (Ok c', h') ->
  GetOk d "network.0" <> None -> GetOk d "network.0.dns.0" <> None ->
  GetOk d "network.0.dns.0.upstream" = Some (VList l) -> l <> [] ->
  exists g0, kubeletArgs c = Some g0 /\
    h' = <[g0 := <["resolv-conf" := DefResolvUpstreamConf common]> (h !!! g0)]> h.
Proof.
  intros E H0 H1 Hl Hne. fields c. unfold networkBlock, dnsDomainStep, dnsUpstreamStep in E.
  run_block; try congruence; try (eexists; split; reflexivity).
  all: destruct l; [congruence|discriminate].
Qed.

(** X13. On a tree as the library hands it out, a non-empty list of upstream
    resolvers means that the kubelet extra-args of a returned record are the
    package's default map and hold [resolv-conf] with the package's
    alternate path. *)
Theorem upstream_resolvers_reach_the_kubelet common d token h cfg h' resolvers :
  fromResourceData d ->
  dataSourceToInitConfig common d token h = (Ok cfg, h') ->
  GetOk d "network.0" <> None -> GetOk d "network.0.dns.0" <> None ->
  GetOk d "network.0.dns.0.upstream" = Some (VList resolvers) -> resolvers <> [] ->
  kubeletArgs cfg = DefKubeletSettings common /\
  contents h' (kubeletArgs cfg) !! "resolv-conf" = Some (DefResolvUpstreamConf common).
Proof.
  intros Hd E H0 H1 Hl Hne.
  apply dataSourceToInitConfig_inv in E. destruct E as (c0 & h0 & E & Et).
  chain_inv E. frame_api E1.
  pose proof (networkBlock_upstream _ _ _ _ _ _ _ E2 H0 H1 Hl Hne) as (g0 & Hg0 & Hh).
  frame_network E2. frame_images E3. frame_cni E6. frame_version E7. frame_etcd E8.
  clear Hh2 Hup. subst h2.
  frame_token Et; frame_cloud E5; frame_runtime E4; norm_fields.
  all: rewrite ?(argsAfter_handedOut d _ _ Hd) in *.
  all: rewrite Hg0 in *; cbn [contents] in *.
  all: try match goal with Hg : Some _ = Some _ |- _ => inversion Hg; subst; clear Hg end.
  all: try (pose proof (Hlk _ eq_refl) as Hlk'; subst lk).
  all: split; [reflexivity|].
  all: rewrite Hcni by (right; split; discriminate).
  all: rewrite ?Hhk, ?withCloudProvider_lookup by discriminate.
  all: rewrite ?store_lookup.
  all: repeat first [ rewrite decide_True by auto
                    | rewrite decide_False by (intros [_ ?]; discriminate) ].
  all: reflexivity.
Qed.

Lemma upstream_resolvers_reach_the_kubelet_witness :
  let h' : gmap loc (gmap string string) :=
    {[ 1%positive := {[ "network-plugin" := "cni";
                        "resolv-conf" := "/etc/resolv.conf.upstream" ]} ]} in
  fromResourceData resolverTree /\
  dataSourceToInitConfig Sample.pkg resolverTree "" Sample.heap0
    = (Ok (baseConfig Sample.pkg), h') /\
  contents h' (kubeletArgs (baseConfig Sample.pkg)) !! "resolv-conf"
    = Some "/etc/resolv.conf.upstream".
Proof.
  intros h'.
  assert (Hd : fromResourceData resolverTree) by handed_out.
  assert (E : dataSourceToInitConfig Sample.pkg resolverTree "" Sample.heap0
              = (Ok (baseConfig Sample.pkg), h')) by (vm_compute; reflexivity).
  split; [exact Hd|]. split; [exact E|].
  assert (H0 : GetOk resolverTree "network.0" <> None) by discriminate.
  assert (H1 : GetOk resolverTree "network.0.dns.0" <> None) by discriminate.
  assert (H2 : [VString "8.8.8.8"] <> []) by discriminate.
  exact (proj2 (upstream_resolvers_reach_the_kubelet Sample.pkg resolverTree ""
                  Sample.heap0 _ h' [VString "8.8.8.8"] Hd E H0 H1 eq_refl H2)).
Defined.
